(** * react-sortful: the per-item drag, hover and move controller

    A shallow embedding of the [Item] component and of the helpers it
    imports.  The component is a React function component: its handlers are
    closures over the props, the group context, the list context and the
    item's own [childIdentifiersRef].  Here the closure variables are
    [Section] variables, the list context is the state of a small
    state-and-trace monad, and every side-effecting statement of a handler
    (a context setter, a write to a ref, a DOM helper, a host callback, a call
    on the event object) is one [Effect] appended to the trace in program
    order.

    Left out: the mount effect that registers the item in its group's
    [childIdentifiersRef] (the handlers only read the size of the item's own
    set, taken as given) and the construction of the rendered element, apart
    from the context a group provides to its children.

    Numbers: indices and pixel coordinates are taken to be integers ([Z]);
    the stackable-area threshold is a rational.  Numeric identifiers are
    integers as well. *)

From Stdlib Require Import ZArith List String Bool Lia QArith.
Import ListNotations.
Open Scope Z_scope.


(** ** Identifiers *)

(** [ItemIdentifier = number | string]; [===] never identifies a number with
    a string. *)
Inductive ItemIdentifier : Type :=
| IdNumber (n : Z)
| IdString (s : string).

Definition identifier_eqb (a b : ItemIdentifier) : bool :=
  match a, b with
  | IdNumber n, IdNumber m => Z.eqb n m
  | IdString s, IdString t => String.eqb s t
  | _, _ => false
  end.

(** A group identifier is [T | undefined]; [undefined] is the root list. *)
Definition group_eqb (a b : option ItemIdentifier) : bool :=
  match a, b with
  | Some x, Some y => identifier_eqb x y
  | None, None => true
  | _, _ => false
  end.

(** [Array.prototype.includes] on identifiers. *)
Fixpoint includes (l : list ItemIdentifier) (x : ItemIdentifier) : bool :=
  match l with
  | [] => false
  | y :: l' => identifier_eqb y x || includes l' x
  end.

(** ** Data of ./shared and ./list that the component handles *)

Inductive Direction : Type := vertical | horizontal.

Inductive DropLineDirection : Type := before | after.

Record Rect : Type := mkRect { left : Z; top : Z; width : Z; height : Z }.

(** An element of the render tree, as far as the controller looks at it:
    its current bounding box. *)
Record HTMLElement : Type := mkElement { boundingClientRect : Rect }.

(** [event.currentTarget] is tested with [instanceof HTMLElement]. *)
Inductive EventTarget : Type :=
| TargetElement (element : HTMLElement)
| TargetOther.

Module Props.
Record t : Type := mk {
    identifier : ItemIdentifier;
    index : Z;
    isGroup : option bool;
    isLocked : option bool;
    isLonely : option bool
  }.

Definition with_isLocked (v : option bool) (p : t) : t :=
  mk (identifier p) (index p) (isGroup p) v (isLonely p).
End Props.

Module NodeMeta.
Record t : Type := mk {
    identifier : ItemIdentifier;
    groupIdentifier : option ItemIdentifier;
    ancestorIdentifiers : list ItemIdentifier;
    index : Z;
    isGroup : bool;
    boundingGeometry : Rect
  }.
End NodeMeta.

Module DestinationMeta.
Record t : Type := mk {
    groupIdentifier : option ItemIdentifier;
    index : option Z
  }.
End DestinationMeta.

Module GroupContext.
  (** The [childIdentifiersRef] of the context belongs to the owning group;
      an item only registers itself there when it mounts.  The handlers read
      the item's own ref, a variable of the [Item] section below. *)
Record t : Type := mk {
    identifier : option ItemIdentifier;
    ancestorIdentifiers : list ItemIdentifier
  }.
End GroupContext.

(** Arguments of the host callbacks. *)
Module DragStartMeta.
Record t : Type := mk {
    identifier : ItemIdentifier;
    groupIdentifier : option ItemIdentifier;
    index : Z;
    isGroup : bool
  }.
End DragStartMeta.

Module DragEndMeta.
Record t : Type := mk {
    identifier : ItemIdentifier;
    groupIdentifier : option ItemIdentifier;
    index : Z;
    isGroup : bool;
    nextGroupIdentifier : option ItemIdentifier;
    nextIndex : option Z
  }.
End DragEndMeta.

Module StackGroupMeta.
Record t : Type := mk {
    identifier : ItemIdentifier;
    groupIdentifier : option ItemIdentifier;
    index : Z;
    isGroup : bool;
    nextGroupIdentifier : option ItemIdentifier
  }.
End StackGroupMeta.

Module ListContext.
  (** One object in the source.  The first nine fields are configuration and
      are never written by an item; the last five are the transient state of
      a gesture.  [onDragStart] and [onStackGroup] are optional callbacks:
      the field says whether the host supplied one.  [onDragEnd] is
      mandatory.  [isVisibleDropLineElement] is what
      [setIsVisibleDropLineElement] last wrote. *)
Record t : Type := mk {
    direction : Direction;
    itemSpacing : Z;
    stackableAreaThreshold : Q;
    draggingCursorStyle : option string;
    isDisabled : bool;
    ghostWrapperElementRef : option HTMLElement;
    dropLineElementRef : option HTMLElement;
    onDragStart : bool;
    onStackGroup : bool;
    draggingNodeMeta : option NodeMeta.t;
    isVisibleDropLineElement : bool;
    stackedGroupIdentifier : option ItemIdentifier;
    hoveredNodeMetaRef : option NodeMeta.t;
    destinationMetaRef : option DestinationMeta.t
  }.

Definition with_draggingNodeMeta (v : option NodeMeta.t) (c : t) : t :=
    mk (direction c) (itemSpacing c) (stackableAreaThreshold c)
       (draggingCursorStyle c) (isDisabled c) (ghostWrapperElementRef c)
       (dropLineElementRef c) (onDragStart c) (onStackGroup c)
       v (isVisibleDropLineElement c) (stackedGroupIdentifier c)
       (hoveredNodeMetaRef c) (destinationMetaRef c).

Definition with_isVisibleDropLineElement (v : bool) (c : t) : t :=
    mk (direction c) (itemSpacing c) (stackableAreaThreshold c)
       (draggingCursorStyle c) (isDisabled c) (ghostWrapperElementRef c)
       (dropLineElementRef c) (onDragStart c) (onStackGroup c)
       (draggingNodeMeta c) v (stackedGroupIdentifier c)
       (hoveredNodeMetaRef c) (destinationMetaRef c).

Definition with_stackedGroupIdentifier (v : option ItemIdentifier) (c : t) : t :=
    mk (direction c) (itemSpacing c) (stackableAreaThreshold c)
       (draggingCursorStyle c) (isDisabled c) (ghostWrapperElementRef c)
       (dropLineElementRef c) (onDragStart c) (onStackGroup c)
       (draggingNodeMeta c) (isVisibleDropLineElement c) v
       (hoveredNodeMetaRef c) (destinationMetaRef c).

Definition with_hoveredNodeMetaRef (v : option NodeMeta.t) (c : t) : t :=
    mk (direction c) (itemSpacing c) (stackableAreaThreshold c)
       (draggingCursorStyle c) (isDisabled c) (ghostWrapperElementRef c)
       (dropLineElementRef c) (onDragStart c) (onStackGroup c)
       (draggingNodeMeta c) (isVisibleDropLineElement c)
       (stackedGroupIdentifier c) v (destinationMetaRef c).

Definition with_destinationMetaRef (v : option DestinationMeta.t) (c : t) : t :=
    mk (direction c) (itemSpacing c) (stackableAreaThreshold c)
       (draggingCursorStyle c) (isDisabled c) (ghostWrapperElementRef c)
       (dropLineElementRef c) (onDragStart c) (onStackGroup c)
       (draggingNodeMeta c) (isVisibleDropLineElement c)
       (stackedGroupIdentifier c) (hoveredNodeMetaRef c) v.

Definition with_isDisabled (v : bool) (c : t) : t :=
    mk (direction c) (itemSpacing c) (stackableAreaThreshold c)
       (draggingCursorStyle c) v (ghostWrapperElementRef c)
       (dropLineElementRef c) (onDragStart c) (onStackGroup c)
       (draggingNodeMeta c) (isVisibleDropLineElement c)
       (stackedGroupIdentifier c) (hoveredNodeMetaRef c) (destinationMetaRef c).
End ListContext.

(** ** Helpers imported from ./shared and ./item *)

(** The two geometric predicates of ./shared.  Their bodies are not part of
    the component; the controller only branches on their results, so the
    handlers are written against this interface and every theorem below holds
    for all implementations of it. *)
Class Shared : Type := {
  getDropLineDirectionFromXY :
    Z * Z -> NodeMeta.t -> Direction -> DropLineDirection;
  checkIsInStackableArea :
    Z * Z -> NodeMeta.t -> Q -> Direction -> bool
}.

(** Modelled from the spec: [getNodeMeta] of ./shared is not among the
    sources.  "Reads the element's current bounding geometry from the render
    tree and packages it with the supplied identity fields into an immutable
    NodeMeta snapshot." *)
Definition getNodeMeta (element : HTMLElement) (identifier : ItemIdentifier)
    (groupIdentifier : option ItemIdentifier)
    (ancestorIdentifiers : list ItemIdentifier) (index : Z) (isGroup : bool)
    : NodeMeta.t :=
  NodeMeta.mk identifier groupIdentifier ancestorIdentifiers index isGroup
              (boundingClientRect element).

(** Modelled from the spec: [checkIsAncestorItem] of ./item is not among the
    sources.  "True if candidateIdentifier appears anywhere in the ordered
    ancestor list." *)
Definition checkIsAncestorItem (candidateIdentifier : ItemIdentifier)
    (ancestorIdentifiers : list ItemIdentifier) : bool :=
  includes ancestorIdentifiers candidateIdentifier.

(** Modelled from the spec: [getDropLinePositionItemIndex] of ./item is not
    among the sources.  "Direction before/after maps directly to hoveredIndex
    / hoveredIndex + 1 before shift correction.  If dragging and hovered items
    share the same group and the dragging item's current index is lower than
    the hovered index, the resolved index accounts for the one-slot shift
    caused by removing the dragged item from its original position before
    reinsertion.  If groups differ, no shift correction is applied." *)
Definition getDropLinePositionItemIndex (dropLineDirection : DropLineDirection)
    (draggingIndex : Z) (draggingGroupIdentifier : option ItemIdentifier)
    (hoveredIndex : Z) (hoveredGroupIdentifier : option ItemIdentifier) : Z :=
  let unshifted :=
    match dropLineDirection with
    | before => hoveredIndex
    | after => hoveredIndex + 1
    end in
  if group_eqb draggingGroupIdentifier hoveredGroupIdentifier
     && (draggingIndex <? hoveredIndex)
  then unshifted - 1
  else unshifted.

(** ** Effects and the handler monad *)

(** One constructor per side-effecting statement of the component. *)
Inductive Effect : Type :=
(* DOM helpers of ./item *)
| ESetBodyStyle (cursor : option string)
| EClearBodyStyle
| EInitializeGhostElementStyle (element : HTMLElement)
    (ghost : option HTMLElement) (itemSpacing : Z) (direction : Direction)
| EClearGhostElementStyle (ghost : option HTMLElement)
| EMoveGhostElement (ghost : option HTMLElement) (movement : Z * Z)
| ESetDropLineElementStyle (dropLine : option HTMLElement) (absoluteXY : Z * Z)
    (hovered : NodeMeta.t) (direction : Direction)
(* calls on the gesture's event object *)
| EEventPersist
| EEventStopPropagation
(* writes to the list context *)
| ESetDraggingNodeMeta (v : option NodeMeta.t)
| ESetIsVisibleDropLineElement (v : bool)
| ESetStackedGroupIdentifier (v : option ItemIdentifier)
| EWriteHoveredNodeMetaRef (v : option NodeMeta.t)
| EWriteDestinationMetaRef (v : option DestinationMeta.t)
(* host callbacks *)
| ECallOnDragStart (meta : DragStartMeta.t)
| ECallOnDragEnd (meta : DragEndMeta.t)
| ECallOnStackGroup (meta : StackGroupMeta.t).

(** What an effect does to the list context. *)
Definition apply_effect (e : Effect) (c : ListContext.t) : ListContext.t :=
  match e with
  | ESetDraggingNodeMeta v => ListContext.with_draggingNodeMeta v c
  | ESetIsVisibleDropLineElement v => ListContext.with_isVisibleDropLineElement v c
  | ESetStackedGroupIdentifier v => ListContext.with_stackedGroupIdentifier v c
  | EWriteHoveredNodeMetaRef v => ListContext.with_hoveredNodeMetaRef v c
  | EWriteDestinationMetaRef v => ListContext.with_destinationMetaRef v c
  | _ => c
  end.

(** Whether an effect writes one of the five transient fields. *)
Definition writes_list_state (e : Effect) : bool :=
  match e with
  | ESetDraggingNodeMeta _ | ESetIsVisibleDropLineElement _
  | ESetStackedGroupIdentifier _ | EWriteHoveredNodeMetaRef _
  | EWriteDestinationMetaRef _ => true
  | _ => false
  end.

Definition is_callback (e : Effect) : bool :=
  match e with
  | ECallOnDragStart _ | ECallOnDragEnd _ | ECallOnStackGroup _ => true
  | _ => false
  end.

Definition M (A : Type) : Type :=
  ListContext.t -> A * ListContext.t * list Effect.

Definition ret {A : Type} (a : A) : M A := fun c => (a, c, []).

Definition bind {A B : Type} (m : M A) (k : A -> M B) : M B :=
  fun c =>
    let '(a, c1, t1) := m c in
    let '(b, c2, t2) := k a c1 in
    (b, c2, t1 ++ t2).

(** Reading [listContext]. *)
Definition get : M ListContext.t := fun c => (c, c, []).

(** Performing one effect. *)
Definition perform (e : Effect) : M unit := fun c => (tt, apply_effect e c, [e]).

Declare Scope handler_scope.
Delimit Scope handler_scope with handler.
Notation "x <- m ;; k" := (bind m (fun x => k))
  (at level 61, m at next level, right associativity) : handler_scope.
Notation "m ;; k" := (bind m (fun _ => k))
  (at level 61, right associativity) : handler_scope.
Open Scope handler_scope.

(** A handler run from a given list context: the context it leaves and the
    effects it performed, in order. *)
Definition run (h : M unit) (c : ListContext.t) : ListContext.t * list Effect :=
  let '(_, c', t) := h c in (c', t).

Definition state_after (h : M unit) (c : ListContext.t) : ListContext.t :=
  fst (run h c).

Definition trace_of (h : M unit) (c : ListContext.t) : list Effect :=
  snd (run h c).

(** The statements of the source, as monadic commands under their names. *)
Definition setBodyStyle (cursor : option string) : M unit :=
  perform (ESetBodyStyle cursor).
Definition clearBodyStyle : M unit := perform EClearBodyStyle.
Definition initializeGhostElementStyle (element : HTMLElement)
    (ghost : option HTMLElement) (itemSpacing : Z) (direction : Direction) : M unit :=
  perform (EInitializeGhostElementStyle element ghost itemSpacing direction).
Definition clearGhostElementStyle (ghost : option HTMLElement) : M unit :=
  perform (EClearGhostElementStyle ghost).
Definition moveGhostElement (ghost : option HTMLElement) (movement : Z * Z) : M unit :=
  perform (EMoveGhostElement ghost movement).
Definition setDropLineElementStyle (dropLine : option HTMLElement)
    (absoluteXY : Z * Z) (hovered : NodeMeta.t) (direction : Direction) : M unit :=
  perform (ESetDropLineElementStyle dropLine absoluteXY hovered direction).
Definition setDraggingNodeMeta (v : option NodeMeta.t) : M unit :=
  perform (ESetDraggingNodeMeta v).
Definition setIsVisibleDropLineElement (v : bool) : M unit :=
  perform (ESetIsVisibleDropLineElement v).
Definition setStackedGroupIdentifier (v : option ItemIdentifier) : M unit :=
  perform (ESetStackedGroupIdentifier v).
Definition assign_hoveredNodeMetaRef (v : option NodeMeta.t) : M unit :=
  perform (EWriteHoveredNodeMetaRef v).
Definition assign_destinationMetaRef (v : option DestinationMeta.t) : M unit :=
  perform (EWriteDestinationMetaRef v).

(** [f?.(x)]: the call happens only when the callback is supplied. *)
Definition optional_call (supplied : bool) (call : Effect) : M unit :=
  if supplied then perform call else ret tt.

(** ** The Item component *)

Section Item.
Context {shared : Shared}.

Variable props : Props.t.
Variable groupContext : GroupContext.t.
  (** The identifiers currently held by the item's own [childIdentifiersRef]. *)
Variable childIdentifiersRef : list ItemIdentifier.

Definition ancestorIdentifiers : list ItemIdentifier :=
    GroupContext.ancestorIdentifiers groupContext ++ [Props.identifier props].

Definition isGroup : bool :=
    match Props.isGroup props with Some b => b | None => false end.

  (** [(listContext.isDisabled || props.isLocked) ?? false] *)
Definition isLocked (listContext : ListContext.t) : bool :=
    match (if ListContext.isDisabled listContext then Some true
           else Props.isLocked props) with
    | Some b => b
    | None => false
    end.

Definition isLonley : bool :=
    match Props.isLonely props with Some b => b | None => false end.

Definition size : Z := Z.of_nat (List.length childIdentifiersRef).

Definition onDragStart (element : HTMLElement) : M unit :=
    listContext <- get ;;
    setBodyStyle (ListContext.draggingCursorStyle listContext) ;;
    initializeGhostElementStyle element
      (ListContext.ghostWrapperElementRef listContext)
      (ListContext.itemSpacing listContext)
      (ListContext.direction listContext) ;;
    let nodeMeta :=
      getNodeMeta element (Props.identifier props)
        (GroupContext.identifier groupContext) ancestorIdentifiers
        (Props.index props) isGroup in
    setDraggingNodeMeta (Some nodeMeta) ;;
    optional_call (ListContext.onDragStart listContext)
      (ECallOnDragStart
         (DragStartMeta.mk (NodeMeta.identifier nodeMeta)
            (NodeMeta.groupIdentifier nodeMeta) (NodeMeta.index nodeMeta)
            (NodeMeta.isGroup nodeMeta))).

Definition onDragEnd : M unit :=
    clearBodyStyle ;;
    listContext <- get ;;
    clearGhostElementStyle (ListContext.ghostWrapperElementRef listContext) ;;
    listContext <- get ;;
    let destinationMeta := ListContext.destinationMetaRef listContext in
    perform (ECallOnDragEnd
      (DragEndMeta.mk (Props.identifier props)
         (GroupContext.identifier groupContext) (Props.index props) isGroup
         (match destinationMeta with
          | Some d => DestinationMeta.groupIdentifier d
          | None => GroupContext.identifier groupContext
          end)
         (match destinationMeta with
          | Some d => DestinationMeta.index d
          | None => Some (Props.index props)
          end))) ;;
    setDraggingNodeMeta None ;;
    setIsVisibleDropLineElement false ;;
    setStackedGroupIdentifier None ;;
    assign_hoveredNodeMetaRef None ;;
    assign_destinationMetaRef None.

Definition onHover (element : HTMLElement) : M unit :=
    listContext <- get ;;
    let isNeededInitialization :=
      match ListContext.draggingNodeMeta listContext with
      | None => true
      | Some draggingNodeMeta =>
          identifier_eqb (Props.identifier props)
                         (NodeMeta.identifier draggingNodeMeta)
          || checkIsAncestorItem (NodeMeta.identifier draggingNodeMeta)
                                 ancestorIdentifiers
      end in
    if isNeededInitialization then
      setIsVisibleDropLineElement false ;;
      assign_hoveredNodeMetaRef None ;;
      assign_destinationMetaRef None
    else
      setIsVisibleDropLineElement true ;;
      assign_hoveredNodeMetaRef
        (Some (getNodeMeta element (Props.identifier props)
                 (GroupContext.identifier groupContext) ancestorIdentifiers
                 (Props.index props) isGroup)).

Definition onMoveForStackableGroup (hoveredNodeMeta : NodeMeta.t) : M unit :=
    setIsVisibleDropLineElement false ;;
    setStackedGroupIdentifier (Some (Props.identifier props)) ;;
    assign_destinationMetaRef
      (Some (DestinationMeta.mk (Some (Props.identifier props)) None)) ;;
    listContext <- get ;;
    optional_call (ListContext.onStackGroup listContext)
      (ECallOnStackGroup
         (StackGroupMeta.mk (Props.identifier props)
            (GroupContext.identifier groupContext) (Props.index props) isGroup
            (Some (NodeMeta.identifier hoveredNodeMeta)))).

Definition onMoveForItems (draggingNodeMeta hoveredNodeMeta : NodeMeta.t)
      (absoluteXY : Z * Z) : M unit :=
    if isLonley then
      setIsVisibleDropLineElement false ;;
      assign_destinationMetaRef None
    else
      (if negb (NodeMeta.index draggingNodeMeta =? NodeMeta.index hoveredNodeMeta)
       then setIsVisibleDropLineElement true else ret tt) ;;
      listContext <- get ;;
      let dropLineElement := ListContext.dropLineElementRef listContext in
      setDropLineElementStyle dropLineElement absoluteXY hoveredNodeMeta
        (ListContext.direction listContext) ;;
      let dropLineDirection :=
        getDropLineDirectionFromXY absoluteXY hoveredNodeMeta
          (ListContext.direction listContext) in
      let nextIndex :=
        getDropLinePositionItemIndex dropLineDirection
          (NodeMeta.index draggingNodeMeta)
          (NodeMeta.groupIdentifier draggingNodeMeta)
          (NodeMeta.index hoveredNodeMeta)
          (NodeMeta.groupIdentifier hoveredNodeMeta) in
      listContext <- get ;;
      let isComeFromStackedGroup :=
        match ListContext.destinationMetaRef listContext with
        | Some (DestinationMeta.mk (Some _) None) => true
        | _ => false
        end in
      (if isComeFromStackedGroup then
         optional_call (ListContext.onStackGroup listContext)
           (ECallOnStackGroup
              (StackGroupMeta.mk (Props.identifier props)
                 (GroupContext.identifier groupContext) (Props.index props)
                 isGroup None))
       else ret tt) ;;
      setStackedGroupIdentifier None ;;
      assign_destinationMetaRef
        (Some (DestinationMeta.mk (GroupContext.identifier groupContext)
                                  (Some nextIndex))).

  (** The condition of the [if] in [onMove]. *)
Definition isStackCase (listContext : ListContext.t)
      (hoveredNodeMeta : NodeMeta.t) (absoluteXY : Z * Z) : bool :=
    let hasNoItems := size =? 0 in
    isGroup && hasNoItems
    && checkIsInStackableArea absoluteXY hoveredNodeMeta
         (ListContext.stackableAreaThreshold listContext)
         (ListContext.direction listContext).

Definition onMove (absoluteXY : Z * Z) : M unit :=
    listContext <- get ;;
    match ListContext.draggingNodeMeta listContext with
    | None => ret tt
    | Some draggingNodeMeta =>
        match ListContext.hoveredNodeMetaRef listContext with
        | None => ret tt
        | Some hoveredNodeMeta =>
            if isStackCase listContext hoveredNodeMeta absoluteXY
            then onMoveForStackableGroup hoveredNodeMeta
            else onMoveForItems draggingNodeMeta hoveredNodeMeta absoluteXY
        end
    end.

  (** [binder = useGesture({ onHover, onMove })].  The argument of [onHover]
      is [event?.currentTarget]: [None] when the gesture state carries no
      event. *)
Definition binder_onHover (currentTarget : option EventTarget) : M unit :=
    listContext <- get ;;
    match ListContext.draggingNodeMeta listContext with
    | None => ret tt
    | Some _ =>
        match currentTarget with
        | Some (TargetElement element) =>
            perform EEventStopPropagation ;;
            onHover element
        | _ => ret tt
        end
    end.

Definition binder_onMove (xy : Z * Z) : M unit :=
    listContext <- get ;;
    match ListContext.draggingNodeMeta listContext with
    | None => ret tt
    | Some draggingNodeMeta =>
        let hasItems := 0 <? size in
        let hoveredNodeAncestors :=
          match ListContext.hoveredNodeMetaRef listContext with
          | Some hovered => NodeMeta.ancestorIdentifiers hovered
          | None => []
          end in
        if hasItems && checkIsAncestorItem (Props.identifier props) hoveredNodeAncestors
        then ret tt
        else if identifier_eqb (Props.identifier props)
                               (NodeMeta.identifier draggingNodeMeta)
        then ret tt
        else if checkIsAncestorItem (NodeMeta.identifier draggingNodeMeta)
                                    ancestorIdentifiers
        then ret tt
        else onMove xy
    end.

  (** [draggableBinder = useGesture({ onDragStart, onDrag, onDragEnd })]. *)
Definition draggableBinder_onDragStart (currentTarget : EventTarget) : M unit :=
    match currentTarget with
    | TargetOther => ret tt
    | TargetElement element =>
        perform EEventPersist ;;
        perform EEventStopPropagation ;;
        listContext <- get ;;
        if isLocked listContext then ret tt else onDragStart element
    end.

Definition draggableBinder_onDrag (down : bool) (movement : Z * Z) : M unit :=
    listContext <- get ;;
    if isLocked listContext then ret tt
    else if negb down then ret tt
    else moveGhostElement (ListContext.ghostWrapperElementRef listContext) movement.

Definition draggableBinder_onDragEnd : M unit :=
    listContext <- get ;;
    if isLocked listContext then ret tt else onDragEnd.

  (** The value the item hands to [GroupContext.Provider] when it is a
      group; a non-group item renders its children in the context it
      received. *)
Definition providedGroupContext : GroupContext.t :=
    if isGroup
    then GroupContext.mk (Some (Props.identifier props)) ancestorIdentifiers
    else groupContext.
End Item.

(** ** The tree of items and the contexts they are rendered in *)

(** An item and the items rendered as its children. *)
#[warnings="-register-all"]
Inductive ItemTree : Type :=
| ItemNode (props : Props.t) (children : list ItemTree).

(** Every item of a tree, paired with the group context it reads.  A group
    wraps its content in [GroupContext.Provider]; any other item passes the
    context it received on to its children. *)
Fixpoint rendered (groupContext : GroupContext.t) (tree : ItemTree)
    : list (GroupContext.t * Props.t) :=
  match tree with
  | ItemNode props children =>
      (groupContext, props)
      :: flat_map (rendered (providedGroupContext props groupContext)) children
  end.

(** The spec's ancestor chain: "ordered list of group identifiers from root
    to immediate parent for a given item".  [groupChain tree props chain]
    holds when [props] is an item of [tree] and [chain] lists, outermost
    first, the groups of [tree] strictly above it. *)
Inductive groupChain : ItemTree -> Props.t -> list ItemIdentifier -> Prop :=
| groupChain_here : forall props children,
    groupChain (ItemNode props children) props []
| groupChain_below : forall props children child item chain,
    In child children ->
    groupChain child item chain ->
    groupChain (ItemNode props children) item
      ((if isGroup props then [Props.identifier props] else []) ++ chain).

(** Induction on item trees, with the hypothesis available for every child. *)
Fixpoint ItemTree_children_ind (P : ItemTree -> Prop)
    (step : forall props children, Forall P children -> P (ItemNode props children))
    (tree : ItemTree) : P tree :=
  match tree with
  | ItemNode props children =>
      step props children
        ((fix all (l : list ItemTree) : Forall P l :=
            match l with
            | [] => Forall_nil P
            | child :: l' =>
                Forall_cons child (ItemTree_children_ind P step child) (all l')
            end) children)
  end.

(** Modelled from the spec: the context above the top-level items is set up
    by the list component, which is not among the sources.  "groupIdentifier
    (owning group's identifier or root)": at the root there is no owning
    group and no ancestor. *)
Definition rootGroupContext : GroupContext.t := GroupContext.mk None [].

(** ** Quantities of the reorder path *)

(** The index the reorder path resolves for a pointer position. *)
Definition resolvedIndex {shared : Shared} (c : ListContext.t)
    (draggingNodeMeta hoveredNodeMeta : NodeMeta.t) (absoluteXY : Z * Z) : Z :=
  getDropLinePositionItemIndex
    (getDropLineDirectionFromXY absoluteXY hoveredNodeMeta (ListContext.direction c))
    (NodeMeta.index draggingNodeMeta) (NodeMeta.groupIdentifier draggingNodeMeta)
    (NodeMeta.index hoveredNodeMeta) (NodeMeta.groupIdentifier hoveredNodeMeta).

(** [isComeFromStackedGroup] of [onMoveForItems]. *)
Definition isComeFromStackedGroup (c : ListContext.t) : bool :=
  match ListContext.destinationMetaRef c with
  | Some (DestinationMeta.mk (Some _) None) => true
  | _ => false
  end.

(** ** Replaying a trace *)

Definition apply_trace (t : list Effect) (c : ListContext.t) : ListContext.t :=
  fold_left (fun c e => apply_effect e c) t c.

Definition writes_destination (e : Effect) : bool :=
  match e with EWriteDestinationMetaRef _ => true | _ => false end.

Definition writes_stacked (e : Effect) : bool :=
  match e with ESetStackedGroupIdentifier _ => true | _ => false end.

(** ** A sample implementation of the geometric interface *)

(** Modelled from the spec: the direction is "computed by comparing the
    pointer's coordinate on the layout axis against the midpoint of the
    hovered element's bounding box on that axis" (a pointer exactly on the
    midpoint, which the spec leaves open, counts as [after]); the stackable
    area is "a central band of the hovered element's bounds, sized as
    threshold fraction of the element's extent".  Used to run the handlers on
    concrete inputs only. *)
Definition midpointDirection (xy : Z * Z) (hovered : NodeMeta.t)
    (direction : Direction) : DropLineDirection :=
  let r := NodeMeta.boundingGeometry hovered in
  match direction with
  | vertical => if 2 * snd xy <? 2 * top r + height r then before else after
  | horizontal => if 2 * fst xy <? 2 * left r + width r then before else after
  end.

(** Modelled from the spec: the pointer is within the band when its distance
    to the midpoint is at most half of [threshold] times the extent. *)
Definition centralBand (xy : Z * Z) (hovered : NodeMeta.t) (threshold : Q)
    (direction : Direction) : bool :=
  let r := NodeMeta.boundingGeometry hovered in
  match direction with
  | vertical =>
      Qle_bool (inject_Z (Z.abs (2 * snd xy - (2 * top r + height r))))
               (threshold * inject_Z (height r))
  | horizontal =>
      Qle_bool (inject_Z (Z.abs (2 * fst xy - (2 * left r + width r))))
               (threshold * inject_Z (width r))
  end.

Definition sampleShared : Shared :=
  {| getDropLineDirectionFromXY := midpointDirection;
     checkIsInStackableArea := centralBand |}.

(** ** Sample data: a root list [a, g1 [], g2 [c], b] *)

Definition box (t : Z) : HTMLElement := mkElement (mkRect 0 t 200 40).

Definition item_a : Props.t := Props.mk (IdString "a") 0 None None None.
Definition item_b : Props.t := Props.mk (IdString "b") 3 None None None.
Definition group_g1 : Props.t := Props.mk (IdString "g1") 1 (Some true) None None.
Definition group_g2 : Props.t := Props.mk (IdString "g2") 2 (Some true) None None.
Definition item_c : Props.t := Props.mk (IdString "c") 0 None None None.
Definition locked_item : Props.t :=
  Props.mk (IdString "b") 3 None (Some true) None.
Definition lonely_item : Props.t :=
  Props.mk (IdString "b") 3 None None (Some true).

(** The group [g2] with its child. *)
Definition sampleTree : ItemTree :=
  ItemNode group_g2 [ItemNode item_c []].

Definition group_g2_context : GroupContext.t :=
  providedGroupContext group_g2 rootGroupContext.

(** The list context of a mounted list on which no gesture is running. *)
Definition idleList : ListContext.t :=
  ListContext.mk vertical 8 (1 # 2) None false None None true true
                 None false None None None.

(** The same list while [a] is being dragged. *)
Definition draggingA : ListContext.t :=
  ListContext.with_draggingNodeMeta
    (Some (getNodeMeta (box 0) (IdString "a") None [IdString "a"] 0 false))
    idleList.

(** The NodeMeta an item builds with [getNodeMeta], at drag-start and at
    hover alike. *)
Definition meta_of (props : Props.t) (groupContext : GroupContext.t)
    (element : HTMLElement) : NodeMeta.t :=
  getNodeMeta element (Props.identifier props)
    (GroupContext.identifier groupContext)
    (ancestorIdentifiers props groupContext) (Props.index props)
    (isGroup props).

(** The list while the group [g2] is being dragged: the pointer was last
    over [g1], whose hover is still recorded, and a destination was recorded
    there. *)
Definition draggingG2 : ListContext.t :=
  ListContext.with_destinationMetaRef
    (Some (DestinationMeta.mk None (Some 1)))
    (ListContext.with_hoveredNodeMetaRef
       (Some (meta_of group_g1 rootGroupContext (box 48)))
       (ListContext.with_isVisibleDropLineElement true
          (ListContext.with_draggingNodeMeta
             (Some (meta_of group_g2 rootGroupContext (box 96))) idleList))).

(** [a] is being dragged and the hover handler of the empty group [g1] has
    accepted the pointer. *)
Definition hoveringG1 : ListContext.t :=
  ListContext.with_hoveredNodeMetaRef
    (Some (meta_of group_g1 rootGroupContext (box 48)))
    (ListContext.with_isVisibleDropLineElement true draggingA).

(** [a] is being dragged, the pointer is over [b]. *)
Definition hoveringB : ListContext.t :=
  ListContext.with_hoveredNodeMetaRef
    (Some (meta_of item_b rootGroupContext (box 144)))
    (ListContext.with_isVisibleDropLineElement true draggingA).

(** [a] has just been stacked into [g1]. *)
Definition stackedOnG1 : ListContext.t :=
  ListContext.with_destinationMetaRef
    (Some (DestinationMeta.mk (Some (IdString "g1")) None))
    (ListContext.with_stackedGroupIdentifier (Some (IdString "g1"))
       (ListContext.with_isVisibleDropLineElement false hoveringG1)).

(** [a] has been stacked into [g1] and the pointer has then entered the
    lonely item [b]. *)
Definition stackedThenOverLonely : ListContext.t :=
  ListContext.with_hoveredNodeMetaRef
    (Some (meta_of lonely_item rootGroupContext (box 144)))
    (ListContext.with_isVisibleDropLineElement true stackedOnG1).

(** ** The rest of the component *)

(** [isNeededInitialization] of [onHover]. *)
Definition isNeededInitialization (props : Props.t)
    (groupContext : GroupContext.t) (listContext : ListContext.t) : bool :=
  match ListContext.draggingNodeMeta listContext with
  | None => true
  | Some draggingNodeMeta =>
      identifier_eqb (Props.identifier props)
                     (NodeMeta.identifier draggingNodeMeta)
      || checkIsAncestorItem (NodeMeta.identifier draggingNodeMeta)
                             (ancestorIdentifiers props groupContext)
  end.

(** *** Registration in the group's set of children *)

(** [Set.prototype.add] and [Set.prototype.delete] on a set of identifiers,
    kept as the list of its elements in insertion order. *)
Definition set_add (x : ItemIdentifier) (s : list ItemIdentifier)
    : list ItemIdentifier :=
  if includes s x then s else s ++ [x].

Definition set_delete (x : ItemIdentifier) (s : list ItemIdentifier)
    : list ItemIdentifier :=
  filter (fun y => negb (identifier_eqb y x)) s.

(** The effect the item runs when it mounts, and its cleanup, as functions
    of the content of [groupContext.childIdentifiersRef]. *)
Definition mountEffect (props : Props.t) (groupChildIdentifiers : list ItemIdentifier)
    : list ItemIdentifier :=
  set_add (Props.identifier props) groupChildIdentifiers.

Definition unmountEffect (props : Props.t) (groupChildIdentifiers : list ItemIdentifier)
    : list ItemIdentifier :=
  set_delete (Props.identifier props) groupChildIdentifiers.

(** *** The rendered element *)

(** The two optional render functions of the list context: whether the host
    supplied them. *)
Module Renderers.
Record t : Type := mk {
    renderPlaceholder : bool;
    renderStackedGroup : bool
  }.
End Renderers.

(** The meta handed to a renderer: [{ identifier, groupIdentifier, index }]. *)
Module RendererMeta.
Record t : Type := mk {
    identifier : ItemIdentifier;
    groupIdentifier : option ItemIdentifier;
    index : Z
  }.
End RendererMeta.

(** What the item puts inside its [div].  The styles are computed by helpers
    of ./item from the arguments recorded here. *)
Inductive Children : Type :=
| PropsChildren
| PlaceholderElement (draggingNodeMeta : NodeMeta.t) (itemSpacing : Z)
    (direction : Direction) (meta : RendererMeta.t) (isGroup : bool)
| StackedGroupElement (hoveredNodeMeta : option NodeMeta.t) (itemSpacing : Z)
    (direction : Direction) (meta : RendererMeta.t).

(** One component of the [padding] style: ["0"] or a number of pixels. *)
Inductive Length : Type :=
| Zero
| Px (q : Q).

Module Element.
Record t : Type := mk {
    children : Children;
    padding : Length * Length
  }.
End Element.

Section ItemRender.
Variable props : Props.t.
Variable groupContext : GroupContext.t.
Variable renderers : Renderers.t.

(** Evaluated afresh from the list context; the memoisation of the source is
    left out. *)
Definition contentElement (listContext : ListContext.t) : Element.t :=
  let draggingNodeMeta := ListContext.draggingNodeMeta listContext in
  let itemSpacing := ListContext.itemSpacing listContext in
  let direction := ListContext.direction listContext in
  let rendererMeta :=
    RendererMeta.mk (Props.identifier props)
      (GroupContext.identifier groupContext) (Props.index props) in
  let children := PropsChildren in
  let children :=
    match draggingNodeMeta with
    | Some dragging =>
        if identifier_eqb (Props.identifier props) (NodeMeta.identifier dragging)
           && Renderers.renderPlaceholder renderers
        then PlaceholderElement dragging itemSpacing direction rendererMeta
               (isGroup props)
        else children
    | None => children
    end in
  let children :=
    if group_eqb (ListContext.stackedGroupIdentifier listContext)
                 (Some (Props.identifier props))
       && Renderers.renderStackedGroup renderers
    then StackedGroupElement (ListContext.hoveredNodeMetaRef listContext)
           itemSpacing direction rendererMeta
    else children in
  let padding :=
    match direction with
    | vertical => (Px (itemSpacing # 2), Zero)
    | horizontal => (Zero, Px (itemSpacing # 2))
    end in
  Element.mk children padding.
End ItemRender.

(** *** Events *)

(** The closure of one rendered item: its props, the group context it reads
    and the current content of its own [childIdentifiersRef]. *)
Record ItemInstance : Type := mkInstance {
  instanceProps : Props.t;
  instanceGroupContext : GroupContext.t;
  instanceChildIdentifiers : list ItemIdentifier
}.

(** What [binder] can be told. *)
Inductive PointerEvent : Type :=
| PointerHover (currentTarget : option EventTarget)
| PointerMove (xy : Z * Z).

(** What [draggableBinder] can be told. *)
Inductive DragEvent : Type :=
| DragStart (currentTarget : EventTarget)
| Drag (down : bool) (movement : Z * Z)
| DragEnd.

Definition binder {shared : Shared} (item : ItemInstance) (e : PointerEvent)
    : M unit :=
  match e with
  | PointerHover currentTarget =>
      binder_onHover (instanceProps item) (instanceGroupContext item) currentTarget
  | PointerMove xy =>
      binder_onMove (instanceProps item) (instanceGroupContext item)
        (instanceChildIdentifiers item) xy
  end.

Definition draggableBinder (item : ItemInstance) (e : DragEvent) : M unit :=
  match e with
  | DragStart currentTarget =>
      draggableBinder_onDragStart (instanceProps item)
        (instanceGroupContext item) currentTarget
  | Drag down movement =>
      draggableBinder_onDrag (instanceProps item) down movement
  | DragEnd =>
      draggableBinder_onDragEnd (instanceProps item) (instanceGroupContext item)
  end.

(** Pointer events handled one after the other, each by the item it is
    delivered to. *)
Fixpoint deliver {shared : Shared} (events : list (ItemInstance * PointerEvent))
    : M unit :=
  match events with
  | [] => ret tt
  | (item, e) :: rest => binder item e ;; deliver rest
  end.

(** *** Predicates on the list context and on group contexts *)

(** The list context with its five transient fields as a drag-end leaves
    them. *)
Definition reset (c : ListContext.t) : ListContext.t :=
  ListContext.with_destinationMetaRef None
    (ListContext.with_hoveredNodeMetaRef None
       (ListContext.with_stackedGroupIdentifier None
          (ListContext.with_isVisibleDropLineElement false
             (ListContext.with_draggingNodeMeta None c)))).

(** No gesture is running and nothing is left of an earlier one. *)
Definition clean (c : ListContext.t) : Prop :=
  ListContext.draggingNodeMeta c = None
  /\ ListContext.isVisibleDropLineElement c = false
  /\ ListContext.stackedGroupIdentifier c = None
  /\ ListContext.hoveredNodeMetaRef c = None
  /\ ListContext.destinationMetaRef c = None.

(** A destination without an index names a group, and that group is the one
    marked as stacked. *)
Definition stackConsistent (c : ListContext.t) : Prop :=
  forall destination,
    ListContext.destinationMetaRef c = Some destination ->
    DestinationMeta.index destination = None ->
    DestinationMeta.groupIdentifier destination <> None
    /\ ListContext.stackedGroupIdentifier c
       = DestinationMeta.groupIdentifier destination.

(** The identifier of a group context is the last entry of its ancestor
    list, and is undefined when the list is empty. *)
Definition contextWellFormed (groupContext : GroupContext.t) : Prop :=
  GroupContext.identifier groupContext
  = last (map Some (GroupContext.ancestorIdentifiers groupContext)) None.

(** Neither the group marked as stacked, nor the group of the destination,
    nor the recorded hovered node is the item [dragged]; the hovered node is
    not below it either. *)
Definition avoids (dragged : ItemIdentifier) (c : ListContext.t) : Prop :=
  ListContext.stackedGroupIdentifier c <> Some dragged
  /\ (forall destination,
        ListContext.destinationMetaRef c = Some destination ->
        DestinationMeta.groupIdentifier destination <> Some dragged)
  /\ (forall hovered,
        ListContext.hoveredNodeMetaRef c = Some hovered ->
        NodeMeta.identifier hovered <> dragged
        /\ ~ In dragged (NodeMeta.ancestorIdentifiers hovered)).

(** Sample instances. *)
Definition instance_a : ItemInstance := mkInstance item_a rootGroupContext [].
Definition instance_b : ItemInstance := mkInstance item_b rootGroupContext [].
Definition instance_g1 : ItemInstance := mkInstance group_g1 rootGroupContext [].
Definition instance_g2 : ItemInstance :=
  mkInstance group_g2 rootGroupContext [IdString "c"].
Definition instance_c : ItemInstance := mkInstance item_c group_g2_context [].

(** A second child of [g2], next to [c]. *)
Definition item_d : Props.t := Props.mk (IdString "d") 1 None None None.
Definition instance_d : ItemInstance := mkInstance item_d group_g2_context [].

Definition bothRenderers : Renderers.t := Renderers.mk true true.

(** Unfolds a handler down to the monad's primitives. *)
Ltac unfold_handler :=
  unfold state_after, trace_of, run,
    draggableBinder_onDragStart, draggableBinder_onDrag,
    draggableBinder_onDragEnd, binder_onHover, binder_onMove,
    onMove, onMoveForItems, onMoveForStackableGroup, onHover, onDragEnd,
    onDragStart, optional_call,
    setBodyStyle, clearBodyStyle, initializeGhostElementStyle,
    clearGhostElementStyle, moveGhostElement, setDropLineElementStyle,
    setDraggingNodeMeta, setIsVisibleDropLineElement,
    setStackedGroupIdentifier, assign_hoveredNodeMetaRef,
    assign_destinationMetaRef, bind, ret, get, perform.

(** ** Basic facts *)

Lemma identifier_eqb_spec (a b : ItemIdentifier) :
  reflect (a = b) (identifier_eqb a b).
Proof.
  destruct a as [n|s], b as [m|t]; simpl; try (constructor; discriminate).
  - destruct (Z.eqb_spec n m); constructor; congruence.
  - destruct (String.eqb_spec s t); constructor; congruence.
Qed.

Lemma identifier_eqb_refl (a : ItemIdentifier) : identifier_eqb a a = true.
Proof. destruct (identifier_eqb_spec a a); congruence. Qed.

Lemma group_eqb_spec (a b : option ItemIdentifier) :
  reflect (a = b) (group_eqb a b).
Proof.
  destruct a as [x|], b as [y|]; simpl; try (constructor; congruence).
  destruct (identifier_eqb_spec x y); constructor; congruence.
Qed.

Lemma includes_In (l : list ItemIdentifier) (x : ItemIdentifier) :
  includes l x = true <-> In x l.
Proof.
  induction l as [|y l IH]; simpl.
  - split; [discriminate | tauto].
  - rewrite orb_true_iff, IH.
    destruct (identifier_eqb_spec y x); intuition congruence.
Qed.

Lemma includes_app (l1 l2 : list ItemIdentifier) (x : ItemIdentifier) :
  includes (l1 ++ l2) x = includes l1 x || includes l2 x.
Proof.
  induction l1 as [|y l1 IH]; simpl; [reflexivity|].
  now rewrite IH, orb_assoc.
Qed.

Lemma checkIsAncestorItem_chain (x : ItemIdentifier) (props : Props.t)
    (gc : GroupContext.t) :
  In x (GroupContext.ancestorIdentifiers gc) ->
  checkIsAncestorItem x (ancestorIdentifiers props gc) = true.
Proof.
  intros H. unfold checkIsAncestorItem, ancestorIdentifiers.
  rewrite includes_app. apply includes_In in H. now rewrite H.
Qed.


(** ** Concrete runs *)

Example isLocked_by_prop : isLocked locked_item idleList = true.
Proof. reflexivity. Qed.

Example dragStart_a_run :
  run (draggableBinder_onDragStart item_a rootGroupContext (TargetElement (box 0)))
      idleList
  = (draggingA,
     [EEventPersist; EEventStopPropagation; ESetBodyStyle None;
      EInitializeGhostElementStyle (box 0) None 8 vertical;
      ESetDraggingNodeMeta (ListContext.draggingNodeMeta draggingA);
      ECallOnDragStart (DragStartMeta.mk (IdString "a") None 0 false)]).
Proof. reflexivity. Qed.

Example getDropLinePositionItemIndex_0_3_after :
  getDropLinePositionItemIndex after 0 None 3 None = 3.
Proof. reflexivity. Qed.

(** A whole gesture: [a] is pressed, the pointer enters [b] and moves in its
    lower half, then the button is released. *)
Example gesture_a_after_b :
  run (draggableBinder_onDragStart item_a rootGroupContext (TargetElement (box 0)) ;;
       binder_onHover item_b rootGroupContext (Some (TargetElement (box 144))) ;;
       binder_onMove (shared := sampleShared) item_b rootGroupContext [] (10, 170) ;;
       draggableBinder_onDragEnd item_a rootGroupContext)
      idleList
  = (idleList,
     [EEventPersist; EEventStopPropagation; ESetBodyStyle None;
      EInitializeGhostElementStyle (box 0) None 8 vertical;
      ESetDraggingNodeMeta (ListContext.draggingNodeMeta draggingA);
      ECallOnDragStart (DragStartMeta.mk (IdString "a") None 0 false);
      EEventStopPropagation;
      ESetIsVisibleDropLineElement true;
      EWriteHoveredNodeMetaRef (Some (meta_of item_b rootGroupContext (box 144)));
      ESetIsVisibleDropLineElement true;
      ESetDropLineElementStyle None (10, 170)
        (meta_of item_b rootGroupContext (box 144)) vertical;
      ESetStackedGroupIdentifier None;
      EWriteDestinationMetaRef (Some (DestinationMeta.mk None (Some 3)));
      EClearBodyStyle; EClearGhostElementStyle None;
      ECallOnDragEnd
        (DragEndMeta.mk (IdString "a") None 0 false None (Some 3));
      ESetDraggingNodeMeta None; ESetIsVisibleDropLineElement false;
      ESetStackedGroupIdentifier None; EWriteHoveredNodeMetaRef None;
      EWriteDestinationMetaRef None]).
Proof. reflexivity. Qed.

(** The pointer enters the empty group [g1] at its centre, then moves to its
    upper edge. *)
Example stack_then_unstack_g1 :
  trace_of (binder_onHover group_g1 rootGroupContext (Some (TargetElement (box 48))) ;;
            binder_onMove (shared := sampleShared) group_g1 rootGroupContext [] (10, 68) ;;
            binder_onMove (shared := sampleShared) group_g1 rootGroupContext [] (10, 50))
           draggingA
  = [EEventStopPropagation;
     ESetIsVisibleDropLineElement true;
     EWriteHoveredNodeMetaRef (Some (meta_of group_g1 rootGroupContext (box 48)));
     ESetIsVisibleDropLineElement false;
     ESetStackedGroupIdentifier (Some (IdString "g1"));
     EWriteDestinationMetaRef
       (Some (DestinationMeta.mk (Some (IdString "g1")) None));
     ECallOnStackGroup
       (StackGroupMeta.mk (IdString "g1") None 1 true (Some (IdString "g1")));
     ESetIsVisibleDropLineElement true;
     ESetDropLineElementStyle None (10, 50)
       (meta_of group_g1 rootGroupContext (box 48)) vertical;
     ECallOnStackGroup (StackGroupMeta.mk (IdString "g1") None 1 true None);
     ESetStackedGroupIdentifier None;
     EWriteDestinationMetaRef (Some (DestinationMeta.mk None (Some 0)))].
Proof. reflexivity. Qed.

(** The state in which the pointer, after a stack into [g1], has entered the
    lonely item is reached by the handlers themselves. *)
Example stackedThenOverLonely_reached :
  state_after
    (binder_onHover group_g1 rootGroupContext (Some (TargetElement (box 48))) ;;
     binder_onMove (shared := sampleShared) group_g1 rootGroupContext [] (10, 68) ;;
     binder_onHover lonely_item rootGroupContext (Some (TargetElement (box 144))))
    draggingA
  = stackedThenOverLonely.
Proof. reflexivity. Qed.

(** ** Drag end *)

(** C4.  A drag-end on an unlocked item whose list never recorded a
    destination ([destinationMetaRef] still undefined) calls the drag-end
    callback exactly once, and the destination it reports is the origin:
    [nextGroupIdentifier] is the item's group and [nextIndex] its index. *)
Theorem dragEnd_without_destination_reports_origin
    (props : Props.t) (groupContext : GroupContext.t) (c : ListContext.t) :
  isLocked props c = false ->
  ListContext.destinationMetaRef c = None ->
  filter is_callback (trace_of (draggableBinder_onDragEnd props groupContext) c)
  = [ECallOnDragEnd
       (DragEndMeta.mk (Props.identifier props)
          (GroupContext.identifier groupContext) (Props.index props)
          (isGroup props)
          (GroupContext.identifier groupContext) (Some (Props.index props)))].
Proof.
  intros Hlock Hdest. unfold_handler. rewrite Hlock. simpl.
  rewrite Hdest. reflexivity.
Qed.

Lemma dragEnd_without_destination_reports_origin_witness :
  filter is_callback (trace_of (draggableBinder_onDragEnd item_a rootGroupContext) draggingA)
  = [ECallOnDragEnd (DragEndMeta.mk (IdString "a") None 0 false None (Some 0))].
Proof.
  apply (dragEnd_without_destination_reports_origin item_a rootGroupContext draggingA);
    reflexivity.
Defined.

(** C5.  After a drag-end on an unlocked item, whatever the list context was,
    the transient state is reset: [draggingNodeMeta], [hoveredNodeMetaRef],
    [destinationMetaRef] and [stackedGroupIdentifier] are undefined and the
    drop line is not visible. *)
Theorem dragEnd_resets_transient_state
    (props : Props.t) (groupContext : GroupContext.t) (c : ListContext.t) :
  isLocked props c = false ->
  let c' := state_after (draggableBinder_onDragEnd props groupContext) c in
  ListContext.draggingNodeMeta c' = None
  /\ ListContext.hoveredNodeMetaRef c' = None
  /\ ListContext.destinationMetaRef c' = None
  /\ ListContext.stackedGroupIdentifier c' = None
  /\ ListContext.isVisibleDropLineElement c' = false.
Proof.
  intros Hlock. unfold_handler. rewrite Hlock. simpl. repeat split.
Qed.

Lemma dragEnd_resets_transient_state_witness :
  let c' := state_after (draggableBinder_onDragEnd item_a rootGroupContext) stackedOnG1 in
  ListContext.draggingNodeMeta c' = None
  /\ ListContext.hoveredNodeMetaRef c' = None
  /\ ListContext.destinationMetaRef c' = None
  /\ ListContext.stackedGroupIdentifier c' = None
  /\ ListContext.isVisibleDropLineElement c' = false.
Proof.
  exact (dragEnd_resets_transient_state item_a rootGroupContext stackedOnG1 eq_refl).
Defined.

(** ** Continuous drag *)

(** C10.  The continuous drag handler leaves the list context as it found
    it.  Its only possible effect is one [moveGhostElement] with the movement
    delta, performed exactly when the item is unlocked and the pointer is
    down; in particular it writes none of the five transient fields and calls
    no callback.  No drag handler records a destination: drag-start does not
    write [destinationMetaRef], and the only value drag-end writes to it is
    undefined. *)
Theorem onDrag_only_moves_ghost
    (props : Props.t) (groupContext : GroupContext.t) (c : ListContext.t)
    (down : bool) (movement : Z * Z) (target : EventTarget) :
  run (draggableBinder_onDrag props down movement) c
  = (c, if negb (isLocked props c) && down
        then [EMoveGhostElement (ListContext.ghostWrapperElementRef c) movement]
        else [])
  /\ (forall e, In e (trace_of (draggableBinder_onDrag props down movement) c) ->
        writes_list_state e = false /\ is_callback e = false)
  /\ (forall e, In e (trace_of (draggableBinder_onDragStart props groupContext target) c) ->
        writes_destination e = false)
  /\ (forall v, In (EWriteDestinationMetaRef v)
                   (trace_of (draggableBinder_onDragEnd props groupContext) c) ->
        v = None).
Proof.
  split; [|split; [|split]].
  - unfold_handler. destruct (isLocked props c), down; reflexivity.
  - unfold_handler. intros e.
    destruct (isLocked props c), down; simpl; intros H; try tauto.
    destruct H as [<-|[]]. split; reflexivity.
  - unfold_handler. intros e. destruct target as [element|]; simpl; [|tauto].
    destruct (isLocked props c), (ListContext.onDragStart c); simpl;
      intros H; repeat (destruct H as [<-|H]; [reflexivity|]); destruct H.
  - unfold_handler. intros v.
    destruct (isLocked props c); simpl; intros H; [tauto|].
    repeat (destruct H as [H|H]; [try discriminate H|]); [|destruct H].
    now injection H as <-.
Qed.

Lemma onDrag_only_moves_ghost_witness :
  run (draggableBinder_onDrag item_a true (3, 4)) hoveringB
  = (hoveringB, [EMoveGhostElement None (3, 4)]).
Proof.
  exact (proj1 (onDrag_only_moves_ghost item_a rootGroupContext hoveringB true
                  (3, 4) (TargetElement (box 0)))).
Defined.

(** ** Lonely items *)

(** C7.  For an item flagged lonely the reorder path performs exactly two
    effects, hiding the drop line and clearing [destinationMetaRef], and
    returns: no index is resolved and no destination is recorded.  This is
    also what [onMove] does on a lonely item whenever the stack case does not
    apply.  Being lonely does not prevent the item from being dragged: its
    drag-start records it as the dragging item. *)
Theorem lonely_item_is_never_reorder_target
    {shared : Shared} (props : Props.t) (groupContext : GroupContext.t)
    (childIdentifiersRef : list ItemIdentifier) (c : ListContext.t)
    (draggingNodeMeta hoveredNodeMeta : NodeMeta.t) (absoluteXY : Z * Z)
    (element : HTMLElement) :
  Props.isLonely props = Some true ->
  run (onMoveForItems props groupContext draggingNodeMeta hoveredNodeMeta absoluteXY) c
  = (ListContext.with_destinationMetaRef None
       (ListContext.with_isVisibleDropLineElement false c),
     [ESetIsVisibleDropLineElement false; EWriteDestinationMetaRef None])
  /\ (ListContext.draggingNodeMeta c = Some draggingNodeMeta ->
      ListContext.hoveredNodeMetaRef c = Some hoveredNodeMeta ->
      isStackCase props childIdentifiersRef c hoveredNodeMeta absoluteXY = false ->
      ListContext.destinationMetaRef
        (state_after (onMove props groupContext childIdentifiersRef absoluteXY) c)
      = None)
  /\ (isLocked props c = false ->
      ListContext.draggingNodeMeta
        (state_after
           (draggableBinder_onDragStart props groupContext (TargetElement element)) c)
      = Some (meta_of props groupContext element)).
Proof.
  intros Hlonely.
  assert (Hl : isLonley props = true) by (unfold isLonley; now rewrite Hlonely).
  split; [|split].
  - unfold_handler. rewrite Hl. reflexivity.
  - intros Hd Hh Hstack. unfold_handler. rewrite Hd, Hh, Hstack, Hl. reflexivity.
  - intros Hlock. unfold_handler. simpl. rewrite Hlock.
    destruct (ListContext.onDragStart c); reflexivity.
Qed.

Lemma lonely_item_is_never_reorder_target_witness :
  run (onMoveForItems (shared := sampleShared) lonely_item rootGroupContext
         (meta_of item_a rootGroupContext (box 0))
         (meta_of lonely_item rootGroupContext (box 144)) (10, 150))
      hoveringB
  = (ListContext.with_destinationMetaRef None
       (ListContext.with_isVisibleDropLineElement false hoveringB),
     [ESetIsVisibleDropLineElement false; EWriteDestinationMetaRef None])
  /\ ListContext.destinationMetaRef
       (state_after
          (onMove (shared := sampleShared) lonely_item rootGroupContext [] (10, 150))
          hoveringB)
     = None
  /\ ListContext.draggingNodeMeta
       (state_after
          (draggableBinder_onDragStart lonely_item rootGroupContext
             (TargetElement (box 144))) idleList)
     = Some (meta_of lonely_item rootGroupContext (box 144)).
Proof.
  destruct (lonely_item_is_never_reorder_target (shared := sampleShared)
              lonely_item rootGroupContext [] hoveringB
              (meta_of item_a rootGroupContext (box 0))
              (meta_of lonely_item rootGroupContext (box 144)) (10, 150)
              (box 144) eq_refl) as (Hreorder & Hmove & _).
  destruct (lonely_item_is_never_reorder_target (shared := sampleShared)
              lonely_item rootGroupContext [] idleList
              (meta_of item_a rootGroupContext (box 0))
              (meta_of lonely_item rootGroupContext (box 144)) (10, 150)
              (box 144) eq_refl) as (_ & _ & Hstart).
  split; [exact Hreorder|split].
  - exact (Hmove eq_refl eq_refl eq_refl).
  - exact (Hstart eq_refl).
Defined.

(** ** The reorder path *)

(** The effects of the reorder path on an item that is not lonely. *)
Lemma onMoveForItems_trace {shared : Shared} (props : Props.t)
    (groupContext : GroupContext.t) (c : ListContext.t)
    (draggingNodeMeta hoveredNodeMeta : NodeMeta.t) (absoluteXY : Z * Z) :
  isLonley props = false ->
  trace_of (onMoveForItems props groupContext draggingNodeMeta hoveredNodeMeta absoluteXY) c
  = (if NodeMeta.index draggingNodeMeta =? NodeMeta.index hoveredNodeMeta
     then [] else [ESetIsVisibleDropLineElement true])
    ++ [ESetDropLineElementStyle (ListContext.dropLineElementRef c) absoluteXY
          hoveredNodeMeta (ListContext.direction c)]
    ++ (if isComeFromStackedGroup c && ListContext.onStackGroup c
        then [ECallOnStackGroup
                (StackGroupMeta.mk (Props.identifier props)
                   (GroupContext.identifier groupContext) (Props.index props)
                   (isGroup props) None)]
        else [])
    ++ [ESetStackedGroupIdentifier None;
        EWriteDestinationMetaRef
          (Some (DestinationMeta.mk (GroupContext.identifier groupContext)
                   (Some (resolvedIndex c draggingNodeMeta hoveredNodeMeta absoluteXY))))].
Proof.
  intros Hl. unfold isComeFromStackedGroup, resolvedIndex. unfold_handler.
  rewrite Hl.
  destruct (NodeMeta.index draggingNodeMeta =? NodeMeta.index hoveredNodeMeta); simpl;
    destruct (ListContext.destinationMetaRef c) as [[[g|] [i|]]|]; simpl;
    try reflexivity;
    destruct (ListContext.onStackGroup c); reflexivity.
Qed.

(** The destination the reorder path leaves behind. *)
Lemma onMoveForItems_destination {shared : Shared} (props : Props.t)
    (groupContext : GroupContext.t) (c : ListContext.t)
    (draggingNodeMeta hoveredNodeMeta : NodeMeta.t) (absoluteXY : Z * Z) :
  ListContext.destinationMetaRef
    (state_after
       (onMoveForItems props groupContext draggingNodeMeta hoveredNodeMeta absoluteXY) c)
  = if isLonley props then None
    else Some (DestinationMeta.mk (GroupContext.identifier groupContext)
                 (Some (resolvedIndex c draggingNodeMeta hoveredNodeMeta absoluteXY))).
Proof.
  unfold resolvedIndex. unfold_handler.
  destruct (isLonley props); [reflexivity|].
  destruct (NodeMeta.index draggingNodeMeta =? NodeMeta.index hoveredNodeMeta); simpl;
    destruct (ListContext.destinationMetaRef c) as [[[g|] [i|]]|]; simpl;
    try reflexivity;
    destruct (ListContext.onStackGroup c); reflexivity.
Qed.

(** The stack path: what it leaves and what it performs. *)
Lemma onMoveForStackableGroup_run (props : Props.t)
    (groupContext : GroupContext.t) (c : ListContext.t)
    (hoveredNodeMeta : NodeMeta.t) :
  run (onMoveForStackableGroup props groupContext hoveredNodeMeta) c
  = (ListContext.with_destinationMetaRef
       (Some (DestinationMeta.mk (Some (Props.identifier props)) None))
       (ListContext.with_stackedGroupIdentifier (Some (Props.identifier props))
          (ListContext.with_isVisibleDropLineElement false c)),
     [ESetIsVisibleDropLineElement false;
      ESetStackedGroupIdentifier (Some (Props.identifier props));
      EWriteDestinationMetaRef
        (Some (DestinationMeta.mk (Some (Props.identifier props)) None))]
     ++ (if ListContext.onStackGroup c
         then [ECallOnStackGroup
                 (StackGroupMeta.mk (Props.identifier props)
                    (GroupContext.identifier groupContext) (Props.index props)
                    (isGroup props) (Some (NodeMeta.identifier hoveredNodeMeta)))]
         else [])).
Proof.
  unfold_handler. simpl. destruct (ListContext.onStackGroup c); reflexivity.
Qed.

Lemma isStackCase_true_iff {shared : Shared} (props : Props.t)
    (childIdentifiersRef : list ItemIdentifier) (c : ListContext.t)
    (hoveredNodeMeta : NodeMeta.t) (absoluteXY : Z * Z) :
  isStackCase props childIdentifiersRef c hoveredNodeMeta absoluteXY = true
  <-> isGroup props = true /\ childIdentifiersRef = []
      /\ checkIsInStackableArea absoluteXY hoveredNodeMeta
           (ListContext.stackableAreaThreshold c) (ListContext.direction c) = true.
Proof.
  unfold isStackCase, size. rewrite !andb_true_iff, Z.eqb_eq.
  destruct childIdentifiersRef as [|x l]; simpl List.length.
  - intuition.
  - rewrite Nat2Z.inj_succ. intuition (try discriminate; try lia).
Qed.

Lemma onMove_dispatch {shared : Shared} (props : Props.t)
    (groupContext : GroupContext.t) (childIdentifiersRef : list ItemIdentifier)
    (c : ListContext.t) (draggingNodeMeta hoveredNodeMeta : NodeMeta.t)
    (absoluteXY : Z * Z) :
  ListContext.draggingNodeMeta c = Some draggingNodeMeta ->
  ListContext.hoveredNodeMetaRef c = Some hoveredNodeMeta ->
  run (onMove props groupContext childIdentifiersRef absoluteXY) c
  = if isStackCase props childIdentifiersRef c hoveredNodeMeta absoluteXY
    then run (onMoveForStackableGroup props groupContext hoveredNodeMeta) c
    else run (onMoveForItems props groupContext draggingNodeMeta hoveredNodeMeta
                absoluteXY) c.
Proof.
  intros Hd Hh. unfold run at 1. unfold onMove, bind, get. rewrite Hd, Hh.
  destruct (isStackCase props childIdentifiersRef c hoveredNodeMeta absoluteXY);
    unfold run.
  - destruct (onMoveForStackableGroup props groupContext hoveredNodeMeta c)
      as [[u c1] t1]. reflexivity.
  - destruct (onMoveForItems props groupContext draggingNodeMeta hoveredNodeMeta
                absoluteXY c) as [[u c1] t1]. reflexivity.
Qed.

(** ** Stack or reorder *)

(** C2.  Let a move reach [onMove] on an item while a drag is active and a
    hover is recorded.  The item is the one under the pointer: the three
    conditions are tested on it.
    - If it is a group, its set of child identifiers is empty and the pointer
      is in the stackable area, the stack path runs: the drop line is hidden,
      [stackedGroupIdentifier] becomes the item's identifier,
      [destinationMetaRef] becomes that identifier with an undefined index,
      and the stack callback, when the host supplied one, is called with the
      recorded hovered identifier as [nextGroupIdentifier].
    - If any one of the three conditions fails, the move is exactly the
      reorder path.
    - The destination left behind is a stack destination if and only if the
      three conditions hold.
    - When the recorded hover is the item's own, the identifier written and
      the identifier passed to the callback are the hovered identifier. *)
Theorem stack_path_iff_empty_group_in_area
    {shared : Shared} (props : Props.t) (groupContext : GroupContext.t)
    (childIdentifiersRef : list ItemIdentifier) (c : ListContext.t)
    (draggingNodeMeta hoveredNodeMeta : NodeMeta.t) (absoluteXY : Z * Z) :
  ListContext.draggingNodeMeta c = Some draggingNodeMeta ->
  ListContext.hoveredNodeMetaRef c = Some hoveredNodeMeta ->
  let inArea :=
    checkIsInStackableArea absoluteXY hoveredNodeMeta
      (ListContext.stackableAreaThreshold c) (ListContext.direction c) in
  let own := Some (Props.identifier props) in
  let hovered := Some (NodeMeta.identifier hoveredNodeMeta) in
  let moved := run (onMove props groupContext childIdentifiersRef absoluteXY) c in
  (isGroup props = true -> childIdentifiersRef = [] -> inArea = true ->
   moved
   = (ListContext.with_destinationMetaRef (Some (DestinationMeta.mk own None))
        (ListContext.with_stackedGroupIdentifier own
           (ListContext.with_isVisibleDropLineElement false c)),
      [ESetIsVisibleDropLineElement false;
       ESetStackedGroupIdentifier own;
       EWriteDestinationMetaRef (Some (DestinationMeta.mk own None))]
      ++ (if ListContext.onStackGroup c
          then [ECallOnStackGroup
                  (StackGroupMeta.mk (Props.identifier props)
                     (GroupContext.identifier groupContext) (Props.index props)
                     true hovered)]
          else [])))
  /\ (isGroup props = false \/ childIdentifiersRef <> [] \/ inArea = false ->
      moved
      = run (onMoveForItems props groupContext draggingNodeMeta hoveredNodeMeta
               absoluteXY) c)
  /\ (ListContext.destinationMetaRef (fst moved)
      = Some (DestinationMeta.mk own None)
      <-> isGroup props = true /\ childIdentifiersRef = [] /\ inArea = true)
  /\ (NodeMeta.identifier hoveredNodeMeta = Props.identifier props ->
      isGroup props = true -> childIdentifiersRef = [] -> inArea = true ->
      ListContext.stackedGroupIdentifier (fst moved) = hovered
      /\ ListContext.destinationMetaRef (fst moved)
         = Some (DestinationMeta.mk hovered None)
      /\ ListContext.isVisibleDropLineElement (fst moved) = false
      /\ (ListContext.onStackGroup c = true ->
          filter is_callback (snd moved)
          = [ECallOnStackGroup
               (StackGroupMeta.mk (Props.identifier props)
                  (GroupContext.identifier groupContext) (Props.index props)
                  true hovered)])).
Proof.
  intros Hd Hh inArea own hovered moved.
  pose proof (onMove_dispatch props groupContext childIdentifiersRef c
                draggingNodeMeta hoveredNodeMeta absoluteXY Hd Hh) as Hrun.
  pose proof (isStackCase_true_iff props childIdentifiersRef c hoveredNodeMeta
                absoluteXY) as Hcase.
  fold inArea in Hcase. fold moved in Hrun.
  assert (Hstack : isGroup props = true -> childIdentifiersRef = [] ->
                   inArea = true ->
                   moved = run (onMoveForStackableGroup props groupContext
                                  hoveredNodeMeta) c).
  { intros Hg Hk Ha. rewrite Hrun.
    rewrite (proj2 Hcase (conj Hg (conj Hk Ha))). reflexivity. }
  split; [|split; [|split]].
  - intros Hg Hk Ha. rewrite (Hstack Hg Hk Ha), onMoveForStackableGroup_run.
    rewrite Hg. reflexivity.
  - intros Hfail. rewrite Hrun.
    destruct (isStackCase props childIdentifiersRef c hoveredNodeMeta absoluteXY)
      eqn:E; [|reflexivity].
    destruct (proj1 Hcase eq_refl) as (Hg & Hk & Ha).
    destruct Hfail as [H|[H|H]]; congruence.
  - split.
    + intros Hdest. apply Hcase.
      destruct (isStackCase props childIdentifiersRef c hoveredNodeMeta absoluteXY)
        eqn:E; [reflexivity|].
      rewrite Hrun in Hdest.
      change (fst (run ?h c)) with (state_after h c) in Hdest.
      rewrite onMoveForItems_destination in Hdest.
      destruct (isLonley props); discriminate.
    + intros (Hg & Hk & Ha).
      rewrite (Hstack Hg Hk Ha), onMoveForStackableGroup_run. reflexivity.
  - intros Hid Hg Hk Ha.
    rewrite (Hstack Hg Hk Ha), onMoveForStackableGroup_run.
    unfold hovered. rewrite Hid, Hg. simpl.
    repeat split. intros ->. reflexivity.
Qed.

Lemma stack_path_iff_empty_group_in_area_witness :
  run (onMove (shared := sampleShared) group_g1 rootGroupContext [] (10, 68)) hoveringG1
  = (stackedOnG1,
     [ESetIsVisibleDropLineElement false;
      ESetStackedGroupIdentifier (Some (IdString "g1"));
      EWriteDestinationMetaRef (Some (DestinationMeta.mk (Some (IdString "g1")) None));
      ECallOnStackGroup
        (StackGroupMeta.mk (IdString "g1") None 1 true (Some (IdString "g1")))]).
Proof.
  destruct (stack_path_iff_empty_group_in_area (shared := sampleShared)
              group_g1 rootGroupContext [] hoveringG1
              (meta_of item_a rootGroupContext (box 0))
              (meta_of group_g1 rootGroupContext (box 48)) (10, 68)
              eq_refl eq_refl) as [Hstack _].
  exact (Hstack eq_refl eq_refl eq_refl).
Defined.

(** ** The resolved index *)

(** C3.  The index a reorder resolves, [getDropLinePositionItemIndex] at the
    dragging and hovered NodeMeta and the drop-line direction:
    - same group, dragging index below the hovered index, direction [after]:
      the hovered index, not the hovered index plus one, the slot freed by
      the dragged item being taken into account;
    - different groups: no correction, the hovered index for [before] and the
      hovered index plus one for [after];
    - dragging index 0, hovered index 3, same group, [after]: 3.
    On an item that is not lonely the reorder path records this index,
    together with the item's group, as the destination. *)
Theorem reorder_index_accounts_for_removed_slot
    {shared : Shared} (props : Props.t) (groupContext : GroupContext.t)
    (c : ListContext.t) (draggingNodeMeta hoveredNodeMeta : NodeMeta.t)
    (absoluteXY : Z * Z) :
  let dropLineDirection :=
    getDropLineDirectionFromXY absoluteXY hoveredNodeMeta (ListContext.direction c) in
  let resolved := resolvedIndex c draggingNodeMeta hoveredNodeMeta absoluteXY in
  (NodeMeta.groupIdentifier draggingNodeMeta = NodeMeta.groupIdentifier hoveredNodeMeta ->
   NodeMeta.index draggingNodeMeta < NodeMeta.index hoveredNodeMeta ->
   dropLineDirection = after ->
   resolved = NodeMeta.index hoveredNodeMeta)
  /\ (NodeMeta.groupIdentifier draggingNodeMeta <> NodeMeta.groupIdentifier hoveredNodeMeta ->
      resolved = match dropLineDirection with
                 | before => NodeMeta.index hoveredNodeMeta
                 | after => NodeMeta.index hoveredNodeMeta + 1
                 end)
  /\ (forall group, getDropLinePositionItemIndex after 0 group 3 group = 3)
  /\ (isLonley props = false ->
      ListContext.destinationMetaRef
        (state_after
           (onMoveForItems props groupContext draggingNodeMeta hoveredNodeMeta
              absoluteXY) c)
      = Some (DestinationMeta.mk (GroupContext.identifier groupContext)
                (Some resolved))).
Proof.
  intros dropLineDirection resolved. unfold resolved, resolvedIndex.
  fold dropLineDirection. unfold getDropLinePositionItemIndex.
  split; [|split; [|split]].
  - intros Hgroup Hlt ->. rewrite Hgroup.
    destruct (group_eqb_spec (NodeMeta.groupIdentifier hoveredNodeMeta)
                (NodeMeta.groupIdentifier hoveredNodeMeta)) as [_|Hne];
      [|now elim Hne].
    apply Z.ltb_lt in Hlt. rewrite Hlt. simpl. lia.
  - intros Hgroup.
    destruct (group_eqb_spec (NodeMeta.groupIdentifier draggingNodeMeta)
                (NodeMeta.groupIdentifier hoveredNodeMeta)) as [Heq|_];
      [now elim Hgroup|].
    reflexivity.
  - intros group.
    destruct (group_eqb_spec group group) as [_|Hne]; [|now elim Hne].
    reflexivity.
  - intros Hl. rewrite onMoveForItems_destination, Hl. reflexivity.
Qed.

Lemma reorder_index_accounts_for_removed_slot_witness :
  resolvedIndex (shared := sampleShared) hoveringB
    (meta_of item_a rootGroupContext (box 0))
    (meta_of item_b rootGroupContext (box 144)) (10, 170) = 3
  /\ ListContext.destinationMetaRef
       (state_after
          (onMoveForItems (shared := sampleShared) item_b rootGroupContext
             (meta_of item_a rootGroupContext (box 0))
             (meta_of item_b rootGroupContext (box 144)) (10, 170))
          hoveringB)
     = Some (DestinationMeta.mk None (Some 3)).
Proof.
  destruct (reorder_index_accounts_for_removed_slot (shared := sampleShared)
              item_b rootGroupContext hoveringB
              (meta_of item_a rootGroupContext (box 0))
              (meta_of item_b rootGroupContext (box 144)) (10, 170))
    as (Hsame & _ & _ & Hdest).
  split.
  - apply Hsame; [reflexivity | simpl; lia | reflexivity].
  - exact (Hdest eq_refl).
Defined.

(** ** Leaving a stacked group *)

(** C6, as the code has it.  On the reorder path of an item that is not
    lonely, when the previous destination is a stack destination (a defined
    group identifier, an undefined index), the trace ends with the un-stack
    call ([nextGroupIdentifier] undefined; the call is made when the host
    supplied the callback), then the clearing of [stackedGroupIdentifier],
    then the write of the new destination.  Nothing performed before the call
    writes either field, so the call happens while both still hold their
    previous values. *)
Theorem unstack_callback_precedes_overwrite
    {shared : Shared} (props : Props.t) (groupContext : GroupContext.t)
    (c : ListContext.t) (draggingNodeMeta hoveredNodeMeta : NodeMeta.t)
    (absoluteXY : Z * Z) (stackedGroup : ItemIdentifier) :
  isLonley props = false ->
  ListContext.destinationMetaRef c
  = Some (DestinationMeta.mk (Some stackedGroup) None) ->
  exists earlier,
    trace_of
      (onMoveForItems props groupContext draggingNodeMeta hoveredNodeMeta absoluteXY) c
    = earlier
      ++ (if ListContext.onStackGroup c
          then [ECallOnStackGroup
                  (StackGroupMeta.mk (Props.identifier props)
                     (GroupContext.identifier groupContext) (Props.index props)
                     (isGroup props) None)]
          else [])
      ++ [ESetStackedGroupIdentifier None;
          EWriteDestinationMetaRef
            (Some (DestinationMeta.mk (GroupContext.identifier groupContext)
                     (Some (resolvedIndex c draggingNodeMeta hoveredNodeMeta
                              absoluteXY))))]
    /\ (forall e, In e earlier ->
          writes_destination e = false /\ writes_stacked e = false
          /\ is_callback e = false)
    /\ ListContext.destinationMetaRef (apply_trace earlier c)
       = ListContext.destinationMetaRef c
    /\ ListContext.stackedGroupIdentifier (apply_trace earlier c)
       = ListContext.stackedGroupIdentifier c.
Proof.
  intros Hl Hdest.
  assert (Hcome : isComeFromStackedGroup c = true).
  { unfold isComeFromStackedGroup. now rewrite Hdest. }
  rewrite (onMoveForItems_trace props groupContext c draggingNodeMeta
             hoveredNodeMeta absoluteXY Hl), Hcome.
  exists ((if NodeMeta.index draggingNodeMeta =? NodeMeta.index hoveredNodeMeta
           then [] else [ESetIsVisibleDropLineElement true])
          ++ [ESetDropLineElementStyle (ListContext.dropLineElementRef c)
                absoluteXY hoveredNodeMeta (ListContext.direction c)]).
  split; [now rewrite <- app_assoc|].
  destruct (NodeMeta.index draggingNodeMeta =? NodeMeta.index hoveredNodeMeta);
    simpl; (split; [|split; reflexivity]);
    intros e H; repeat (destruct H as [<-|H]; [repeat split|]); destruct H.
Qed.

(** C6 as stated fails on a lonely item: its move takes the reorder path
    right after a stack into [g1], yet no un-stack call is made and
    [stackedGroupIdentifier] keeps naming [g1]. *)
Lemma lonely_reorder_makes_no_unstack_call :
  ListContext.destinationMetaRef stackedThenOverLonely
  = Some (DestinationMeta.mk (Some (IdString "g1")) None)
  /\ ListContext.onStackGroup stackedThenOverLonely = true
  /\ run (binder_onMove (shared := sampleShared) lonely_item rootGroupContext []
            (10, 150)) stackedThenOverLonely
     = run (onMoveForItems (shared := sampleShared) lonely_item rootGroupContext
              (meta_of item_a rootGroupContext (box 0))
              (meta_of lonely_item rootGroupContext (box 144)) (10, 150))
           stackedThenOverLonely
  /\ ~ In (ECallOnStackGroup (StackGroupMeta.mk (IdString "b") None 3 false None))
          (trace_of
             (binder_onMove (shared := sampleShared) lonely_item rootGroupContext []
                (10, 150)) stackedThenOverLonely)
  /\ ListContext.stackedGroupIdentifier
       (state_after
          (binder_onMove (shared := sampleShared) lonely_item rootGroupContext []
             (10, 150)) stackedThenOverLonely)
     = Some (IdString "g1").
Proof.
  repeat split.
  intros [H|[H|[]]]; discriminate H.
Qed.

Lemma unstack_callback_precedes_overwrite_witness :
  exists earlier,
    trace_of
      (onMoveForItems (shared := sampleShared) group_g1 rootGroupContext
         (meta_of item_a rootGroupContext (box 0))
         (meta_of group_g1 rootGroupContext (box 48)) (10, 50))
      stackedOnG1
    = earlier
      ++ [ECallOnStackGroup (StackGroupMeta.mk (IdString "g1") None 1 true None)]
      ++ [ESetStackedGroupIdentifier None;
          EWriteDestinationMetaRef (Some (DestinationMeta.mk None (Some 0)))]
    /\ (forall e, In e earlier ->
          writes_destination e = false /\ writes_stacked e = false
          /\ is_callback e = false)
    /\ ListContext.destinationMetaRef (apply_trace earlier stackedOnG1)
       = Some (DestinationMeta.mk (Some (IdString "g1")) None)
    /\ ListContext.stackedGroupIdentifier (apply_trace earlier stackedOnG1)
       = Some (IdString "g1").
Proof.
  exact (unstack_callback_precedes_overwrite (shared := sampleShared)
           group_g1 rootGroupContext stackedOnG1
           (meta_of item_a rootGroupContext (box 0))
           (meta_of group_g1 rootGroupContext (box 48)) (10, 50)
           (IdString "g1") eq_refl eq_refl).
Defined.

(** ** Locked items *)

(** The flags that lock an item are read by the drag handlers only: the run
    of a hover or move handler is the same whatever [props.isLocked] and
    [listContext.isDisabled] are. *)
Lemma binder_ignores_lock {shared : Shared} (props : Props.t)
    (groupContext : GroupContext.t) (childIdentifiersRef : list ItemIdentifier)
    (c : ListContext.t) (locked : option bool) (disabled : bool) :
  (forall target,
     run (binder_onHover (Props.with_isLocked locked props) groupContext target)
         (ListContext.with_isDisabled disabled c)
     = (ListContext.with_isDisabled disabled
          (state_after (binder_onHover props groupContext target) c),
        trace_of (binder_onHover props groupContext target) c))
  /\ (forall xy,
        run (binder_onMove (Props.with_isLocked locked props) groupContext
               childIdentifiersRef xy)
            (ListContext.with_isDisabled disabled c)
        = (ListContext.with_isDisabled disabled
             (state_after (binder_onMove props groupContext childIdentifiersRef xy) c),
           trace_of (binder_onMove props groupContext childIdentifiersRef xy) c)).
Proof.
  destruct props as [id idx g l lo], c as [dir sp thr cur dis gh dl ods osg dn vis st hov dest].
  split.
  - intros target. unfold_handler. unfold isStackCase, ancestorIdentifiers, isGroup, isLonley. simpl.
    destruct dn as [d|]; [|reflexivity].
    destruct target as [[element|]|]; try reflexivity. simpl.
    destruct (identifier_eqb id (NodeMeta.identifier d)
              || checkIsAncestorItem (NodeMeta.identifier d)
                   (GroupContext.ancestorIdentifiers groupContext ++ [id]));
      reflexivity.
  - intros xy. unfold_handler. unfold isStackCase, ancestorIdentifiers, isGroup, isLonley, size. simpl.
    destruct dn as [d|]; [|reflexivity].
    repeat match goal with
           | |- context [if ?b then _ else _] => destruct b; simpl; try reflexivity
           end.
    all: destruct hov as [h|]; simpl; try reflexivity.
    all: repeat match goal with
           | |- context [if ?b then _ else _] => destruct b; simpl; try reflexivity
           | |- context [match ?x with Some _ => _ | None => _ end] =>
               destruct x; simpl; try reflexivity
           end.
Qed.

(** C8, as the code has it.  For an item whose [isLocked] is true (its own
    prop or the list-wide [isDisabled]):
    - the drag-start handler still persists the event and stops its
      propagation when the target is an element, and then returns: the list
      context is untouched, no DOM helper runs and no callback is called;
    - the continuous-drag and drag-end handlers perform nothing at all;
    - the hover and move handlers never look at the lock: they run exactly as
      they would on the same item with neither flag set. *)
Theorem locked_item_drag_suppressed_hover_move_active
    {shared : Shared} (props : Props.t) (groupContext : GroupContext.t)
    (childIdentifiersRef : list ItemIdentifier) (c : ListContext.t) :
  isLocked props c = true ->
  (forall target,
     run (draggableBinder_onDragStart props groupContext target) c
     = (c, match target with
           | TargetElement _ => [EEventPersist; EEventStopPropagation]
           | TargetOther => []
           end))
  /\ (forall down movement,
        run (draggableBinder_onDrag props down movement) c = (c, []))
  /\ run (draggableBinder_onDragEnd props groupContext) c = (c, [])
  /\ (forall target,
        run (binder_onHover props groupContext target) c
        = (ListContext.with_isDisabled (ListContext.isDisabled c)
             (state_after
                (binder_onHover (Props.with_isLocked None props) groupContext target)
                (ListContext.with_isDisabled false c)),
           trace_of
             (binder_onHover (Props.with_isLocked None props) groupContext target)
             (ListContext.with_isDisabled false c)))
  /\ (forall xy,
        run (binder_onMove props groupContext childIdentifiersRef xy) c
        = (ListContext.with_isDisabled (ListContext.isDisabled c)
             (state_after
                (binder_onMove (Props.with_isLocked None props) groupContext
                   childIdentifiersRef xy)
                (ListContext.with_isDisabled false c)),
           trace_of
             (binder_onMove (Props.with_isLocked None props) groupContext
                childIdentifiersRef xy)
             (ListContext.with_isDisabled false c))).
Proof.
  intros Hlock.
  assert (Hp : Props.with_isLocked (Props.isLocked props)
                 (Props.with_isLocked None props) = props)
    by (destruct props; reflexivity).
  assert (Hc : ListContext.with_isDisabled (ListContext.isDisabled c)
                 (ListContext.with_isDisabled false c) = c)
    by (destruct c; reflexivity).
  pose proof (binder_ignores_lock (Props.with_isLocked None props) groupContext
                childIdentifiersRef (ListContext.with_isDisabled false c)
                (Props.isLocked props) (ListContext.isDisabled c)) as [Hhover Hmove].
  rewrite Hp, Hc in Hhover, Hmove.
  split; [|split; [|split; [|split]]].
  - intros [element|]; unfold_handler; simpl; [rewrite Hlock|]; reflexivity.
  - intros down movement. unfold_handler. rewrite Hlock. reflexivity.
  - unfold_handler. rewrite Hlock. reflexivity.
  - exact Hhover.
  - exact Hmove.
Qed.

(** C8 as stated fails: the drag-start handler of a locked item is not a
    no-op, it consumes the event. *)
Lemma locked_dragStart_still_stops_propagation :
  ~ (isLocked locked_item idleList = true ->
     run (draggableBinder_onDragStart locked_item rootGroupContext
            (TargetElement (box 144))) idleList
     = (idleList, [])).
Proof.
  intros H. specialize (H eq_refl). discriminate H.
Qed.

Lemma locked_item_drag_suppressed_hover_move_active_witness :
  run (draggableBinder_onDragStart locked_item rootGroupContext
         (TargetElement (box 144))) hoveringB
  = (hoveringB, [EEventPersist; EEventStopPropagation])
  /\ run (draggableBinder_onDragEnd locked_item rootGroupContext) hoveringB
     = (hoveringB, [])
  /\ ListContext.destinationMetaRef
       (state_after
          (binder_onMove (shared := sampleShared) locked_item rootGroupContext []
             (10, 170)) hoveringB)
     = Some (DestinationMeta.mk None (Some 3)).
Proof.
  destruct (locked_item_drag_suppressed_hover_move_active (shared := sampleShared)
              locked_item rootGroupContext [] hoveringB eq_refl)
    as (Hstart & _ & Hend & _ & Hmove).
  split; [exact (Hstart (TargetElement (box 144)))|split; [exact Hend|]].
  unfold state_after. rewrite (Hmove (10, 170)). reflexivity.
Defined.

(** ** Ancestor identifiers *)

(** The ancestor list of the context an item is rendered in is the ancestor
    list of the context at the top followed by the item's group chain. *)
Lemma rendered_context_chain (tree : ItemTree) :
  forall (root groupContext : GroupContext.t) (props : Props.t),
    In (groupContext, props) (rendered root tree) ->
    exists chain,
      groupChain tree props chain
      /\ GroupContext.ancestorIdentifiers groupContext
         = GroupContext.ancestorIdentifiers root ++ chain.
Proof.
  induction tree as [item children IH] using ItemTree_children_ind.
  intros root groupContext props Hin. simpl in Hin.
  destruct Hin as [Heq|Hin].
  - injection Heq as <- <-. exists []. split.
    + constructor.
    + now rewrite app_nil_r.
  - apply in_flat_map in Hin as (child & Hchild & Hin).
    rewrite Forall_forall in IH.
    destruct (IH child Hchild _ _ _ Hin) as (chain & Hchain & Hanc).
    exists ((if isGroup item then [Props.identifier item] else []) ++ chain).
    split.
    + now apply groupChain_below with (child := child).
    + rewrite Hanc. unfold providedGroupContext, ancestorIdentifiers.
      destruct (isGroup item); simpl.
      * now rewrite <- app_assoc.
      * reflexivity.
Qed.

Lemma includes_false (l : list ItemIdentifier) (x : ItemIdentifier) :
  ~ In x l -> includes l x = false.
Proof.
  intros H. destruct (includes l x) eqn:E; [|reflexivity].
  apply includes_In in E. contradiction.
Qed.

(** C9, as the code has it.  For an item rendered somewhere in a tree, the
    [ancestorIdentifiers] of the NodeMeta its handlers produce is the chain
    of group identifiers from the root to its immediate parent followed by
    the item's own identifier, which is therefore its last element.  Such a
    NodeMeta is produced at the drag-start of an unlocked item, and at every
    hover of an item that is neither the dragging item nor below it. *)
Theorem nodeMeta_ancestors_are_chain_then_self
    (root : GroupContext.t) (tree : ItemTree) (groupContext : GroupContext.t)
    (props : Props.t) (c : ListContext.t) (element : HTMLElement) :
  In (groupContext, props) (rendered root tree) ->
  exists chain,
    groupChain tree props chain
    /\ NodeMeta.ancestorIdentifiers (meta_of props groupContext element)
       = GroupContext.ancestorIdentifiers root ++ chain ++ [Props.identifier props]
    /\ (isLocked props c = false ->
        ListContext.draggingNodeMeta
          (state_after
             (draggableBinder_onDragStart props groupContext (TargetElement element)) c)
        = Some (meta_of props groupContext element))
    /\ (forall draggingNodeMeta,
          ListContext.draggingNodeMeta c = Some draggingNodeMeta ->
          Props.identifier props <> NodeMeta.identifier draggingNodeMeta ->
          ~ In (NodeMeta.identifier draggingNodeMeta)
               (GroupContext.ancestorIdentifiers groupContext) ->
          ListContext.hoveredNodeMetaRef
            (state_after (onHover props groupContext element) c)
          = Some (meta_of props groupContext element))
    /\ (forall produced,
          ListContext.hoveredNodeMetaRef
            (state_after (onHover props groupContext element) c) = Some produced ->
          produced = meta_of props groupContext element).
Proof.
  intros Hin.
  destruct (rendered_context_chain tree root groupContext props Hin)
    as (chain & Hchain & Hanc).
  exists chain. split; [exact Hchain|]. split; [|split; [|split]].
  - simpl. unfold ancestorIdentifiers. now rewrite Hanc, app_assoc.
  - intros Hlock. unfold_handler. simpl. rewrite Hlock.
    destruct (ListContext.onDragStart c); reflexivity.
  - intros d Hd Hne Hnotin. unfold_handler. rewrite Hd.
    destruct (identifier_eqb_spec (Props.identifier props) (NodeMeta.identifier d))
      as [Heq|_]; [contradiction|].
    unfold checkIsAncestorItem, ancestorIdentifiers.
    rewrite includes_app, (includes_false _ _ Hnotin). simpl.
    destruct (identifier_eqb_spec (Props.identifier props) (NodeMeta.identifier d))
      as [Heq|_]; [contradiction|].
    reflexivity.
  - intros produced. unfold_handler.
    destruct (match ListContext.draggingNodeMeta c with
              | Some d =>
                  identifier_eqb (Props.identifier props) (NodeMeta.identifier d)
                  || checkIsAncestorItem (NodeMeta.identifier d)
                       (ancestorIdentifiers props groupContext)
              | None => true
              end); simpl; [discriminate|].
    intros H. injection H as <-. reflexivity.
Qed.

(** C9 as stated fails: the item [c] of the group [g2] has the group chain
    [g2], yet the NodeMeta of its drag-start lists [g2; c], its own
    identifier included. *)
Lemma nodeMeta_ancestors_include_own_identifier :
  In (group_g2_context, item_c) (rendered rootGroupContext sampleTree)
  /\ groupChain sampleTree item_c [IdString "g2"]
  /\ ~ (forall produced,
          ListContext.draggingNodeMeta
            (state_after
               (draggableBinder_onDragStart item_c group_g2_context
                  (TargetElement (box 100))) idleList)
          = Some produced ->
          NodeMeta.ancestorIdentifiers produced = [IdString "g2"]
          /\ ~ In (NodeMeta.identifier produced) (NodeMeta.ancestorIdentifiers produced)).
Proof.
  split; [|split].
  - simpl. right. left. reflexivity.
  - apply (groupChain_below group_g2 [ItemNode item_c []] (ItemNode item_c [])
             item_c []).
    + left. reflexivity.
    + constructor.
  - intros H. destruct (H _ eq_refl) as [Habs _]. discriminate Habs.
Qed.

Lemma nodeMeta_ancestors_are_chain_then_self_witness :
  exists chain,
    groupChain sampleTree item_c chain
    /\ NodeMeta.ancestorIdentifiers (meta_of item_c group_g2_context (box 100))
       = [] ++ chain ++ [IdString "c"]
    /\ ListContext.draggingNodeMeta
         (state_after
            (draggableBinder_onDragStart item_c group_g2_context
               (TargetElement (box 100))) idleList)
       = Some (meta_of item_c group_g2_context (box 100)).
Proof.
  destruct (nodeMeta_ancestors_are_chain_then_self rootGroupContext sampleTree
              group_g2_context item_c idleList (box 100)
              (or_intror (or_introl eq_refl)))
    as (chain & Hchain & Hanc & Hstart & _).
  exists chain. split; [exact Hchain|]. split; [exact Hanc|].
  exact (Hstart eq_refl).
Defined.

(** ** Composition of handlers *)

Lemma run_bind (m k : M unit) (c : ListContext.t) :
  run (m ;; k) c
  = (state_after k (state_after m c),
     trace_of m c ++ trace_of k (state_after m c)).
Proof.
  unfold state_after, trace_of, run, bind.
  destruct (m c) as [[u c1] t1]. simpl.
  destruct (k c1) as [[v c2] t2]. reflexivity.
Qed.

Lemma state_after_bind (m k : M unit) (c : ListContext.t) :
  state_after (m ;; k) c = state_after k (state_after m c).
Proof. unfold state_after at 1. now rewrite run_bind. Qed.

Lemma trace_of_bind (m k : M unit) (c : ListContext.t) :
  trace_of (m ;; k) c = trace_of m c ++ trace_of k (state_after m c).
Proof. unfold trace_of at 1. now rewrite run_bind. Qed.

(** ** The hover handler, case by case *)

Lemma onHover_run (props : Props.t) (groupContext : GroupContext.t)
    (element : HTMLElement) (c : ListContext.t) :
  run (onHover props groupContext element) c
  = if isNeededInitialization props groupContext c
    then (ListContext.with_destinationMetaRef None
            (ListContext.with_hoveredNodeMetaRef None
               (ListContext.with_isVisibleDropLineElement false c)),
          [ESetIsVisibleDropLineElement false; EWriteHoveredNodeMetaRef None;
           EWriteDestinationMetaRef None])
    else (ListContext.with_hoveredNodeMetaRef
            (Some (meta_of props groupContext element))
            (ListContext.with_isVisibleDropLineElement true c),
          [ESetIsVisibleDropLineElement true;
           EWriteHoveredNodeMetaRef (Some (meta_of props groupContext element))]).
Proof.
  unfold isNeededInitialization. unfold_handler.
  destruct (match ListContext.draggingNodeMeta c with
            | Some d =>
                identifier_eqb (Props.identifier props) (NodeMeta.identifier d)
                || checkIsAncestorItem (NodeMeta.identifier d)
                     (ancestorIdentifiers props groupContext)
            | None => true
            end); reflexivity.
Qed.

Lemma binder_onHover_run (props : Props.t) (groupContext : GroupContext.t)
    (currentTarget : option EventTarget) (c : ListContext.t) :
  run (binder_onHover props groupContext currentTarget) c
  = match ListContext.draggingNodeMeta c, currentTarget with
    | Some _, Some (TargetElement element) =>
        (state_after (onHover props groupContext element) c,
         EEventStopPropagation :: trace_of (onHover props groupContext element) c)
    | _, _ => (c, [])
    end.
Proof.
  unfold state_after, trace_of, run, binder_onHover, bind, get, perform, ret.
  destruct (ListContext.draggingNodeMeta c) as [d|]; [|reflexivity].
  destruct currentTarget as [[element|]|]; try reflexivity. simpl.
  destruct (onHover props groupContext element c) as [[u c1] t1]. reflexivity.
Qed.

Lemma isNeededInitialization_false_iff (props : Props.t)
    (groupContext : GroupContext.t) (c : ListContext.t)
    (draggingNodeMeta : NodeMeta.t) :
  ListContext.draggingNodeMeta c = Some draggingNodeMeta ->
  (isNeededInitialization props groupContext c = false
   <-> Props.identifier props <> NodeMeta.identifier draggingNodeMeta
       /\ ~ In (NodeMeta.identifier draggingNodeMeta)
              (GroupContext.ancestorIdentifiers groupContext)).
Proof.
  intros Hd. unfold isNeededInitialization. rewrite Hd.
  unfold checkIsAncestorItem, ancestorIdentifiers.
  rewrite includes_app, orb_false_iff, orb_false_iff. simpl.
  rewrite orb_false_r.
  destruct (identifier_eqb_spec (Props.identifier props)
              (NodeMeta.identifier draggingNodeMeta)) as [Heq|Hne].
  - split; [intros [H _]; discriminate H | intros [H _]; contradiction].
  - destruct (includes (GroupContext.ancestorIdentifiers groupContext)
                (NodeMeta.identifier draggingNodeMeta)) eqn:E.
    + apply includes_In in E.
      split; [intros (_ & H & _); discriminate H|intros [_ H]; contradiction].
    + split; [|tauto]. intros _. split; [exact Hne|].
      intros Hin. apply includes_In in Hin. congruence.
Qed.

(** ** The reorder path, as a state transformer *)

Lemma onMoveForItems_state {shared : Shared} (props : Props.t)
    (groupContext : GroupContext.t) (c : ListContext.t)
    (draggingNodeMeta hoveredNodeMeta : NodeMeta.t) (absoluteXY : Z * Z) :
  state_after
    (onMoveForItems props groupContext draggingNodeMeta hoveredNodeMeta absoluteXY) c
  = if isLonley props
    then ListContext.with_destinationMetaRef None
           (ListContext.with_isVisibleDropLineElement false c)
    else ListContext.with_destinationMetaRef
           (Some (DestinationMeta.mk (GroupContext.identifier groupContext)
                    (Some (resolvedIndex c draggingNodeMeta hoveredNodeMeta
                             absoluteXY))))
           (ListContext.with_stackedGroupIdentifier None
              (if NodeMeta.index draggingNodeMeta =? NodeMeta.index hoveredNodeMeta
               then c
               else ListContext.with_isVisibleDropLineElement true c)).
Proof.
  unfold resolvedIndex. unfold_handler.
  destruct (isLonley props); [reflexivity|].
  destruct (NodeMeta.index draggingNodeMeta =? NodeMeta.index hoveredNodeMeta); simpl;
    destruct (ListContext.destinationMetaRef c) as [[[g|] [i|]]|]; simpl;
    try reflexivity;
    destruct (ListContext.onStackGroup c); reflexivity.
Qed.

Lemma binder_onMove_eq {shared : Shared} (props : Props.t)
    (groupContext : GroupContext.t) (childIdentifiersRef : list ItemIdentifier)
    (xy : Z * Z) (c : ListContext.t) :
  run (binder_onMove props groupContext childIdentifiersRef xy) c
  = match ListContext.draggingNodeMeta c with
    | None => (c, [])
    | Some draggingNodeMeta =>
        if (0 <? size childIdentifiersRef)
           && checkIsAncestorItem (Props.identifier props)
                match ListContext.hoveredNodeMetaRef c with
                | Some hovered => NodeMeta.ancestorIdentifiers hovered
                | None => []
                end
        then (c, [])
        else if isNeededInitialization props groupContext c
        then (c, [])
        else run (onMove props groupContext childIdentifiersRef xy) c
    end.
Proof.
  unfold isNeededInitialization.
  unfold run. unfold binder_onMove, bind, get, ret.
  destruct (ListContext.draggingNodeMeta c) as [d|] eqn:Hd; [|reflexivity].
  destruct ((0 <? size childIdentifiersRef)
            && checkIsAncestorItem (Props.identifier props)
                 match ListContext.hoveredNodeMetaRef c with
                 | Some hovered => NodeMeta.ancestorIdentifiers hovered
                 | None => []
                 end); [reflexivity|].
  destruct (identifier_eqb (Props.identifier props) (NodeMeta.identifier d));
    [reflexivity|].
  destruct (checkIsAncestorItem (NodeMeta.identifier d)
              (ancestorIdentifiers props groupContext)); [reflexivity|].
  simpl.
  destruct (onMove props groupContext childIdentifiersRef xy c) as [[u c1] t1].
  reflexivity.
Qed.

(** What [binder.onMove] comes down to: nothing, or [onMove] on an item that
    is neither the dragging item nor below it. *)
Lemma binder_onMove_run {shared : Shared} (props : Props.t)
    (groupContext : GroupContext.t) (childIdentifiersRef : list ItemIdentifier)
    (xy : Z * Z) (c : ListContext.t) :
  run (binder_onMove props groupContext childIdentifiersRef xy) c = (c, [])
  \/ (isNeededInitialization props groupContext c = false
      /\ exists draggingNodeMeta hoveredNodeMeta,
           ListContext.draggingNodeMeta c = Some draggingNodeMeta
           /\ ListContext.hoveredNodeMetaRef c = Some hoveredNodeMeta
           /\ run (binder_onMove props groupContext childIdentifiersRef xy) c
              = run (onMove props groupContext childIdentifiersRef xy) c).
Proof.
  rewrite binder_onMove_eq.
  destruct (ListContext.draggingNodeMeta c) as [d|] eqn:Hd; [|now left].
  destruct ((0 <? size childIdentifiersRef) && _); [now left|].
  destruct (isNeededInitialization props groupContext c); [now left|].
  destruct (ListContext.hoveredNodeMetaRef c) as [h|] eqn:Hh.
  - right. split; [reflexivity|]. exists d, h. repeat split.
  - left. unfold run, onMove, bind, get, ret. rewrite Hd, Hh. reflexivity.
Qed.

(** ** Guards *)

(** X1.  The pointer handlers do nothing outside a gesture, and a move does
    nothing as long as no hover is recorded: without a dragging item every
    hover and move returns with no effect, and with one but no hovered node
    every move does.  A hover whose event carries no element, and a
    drag-start whose target is not an element, return with no effect either,
    the latter before the event is touched. *)
Theorem pointer_handlers_inert_without_drag_or_hover
    {shared : Shared} (item : ItemInstance) (c : ListContext.t) :
  (ListContext.draggingNodeMeta c = None ->
   forall e, run (binder item e) c = (c, []))
  /\ (ListContext.hoveredNodeMetaRef c = None ->
      forall xy, run (binder item (PointerMove xy)) c = (c, []))
  /\ (forall currentTarget,
        currentTarget = None \/ currentTarget = Some TargetOther ->
        run (binder item (PointerHover currentTarget)) c = (c, []))
  /\ run (draggableBinder item (DragStart TargetOther)) c = (c, []).
Proof.
  split; [|split; [|split]].
  - intros Hd [currentTarget|xy]; simpl.
    + rewrite binder_onHover_run, Hd. reflexivity.
    + rewrite binder_onMove_eq, Hd. reflexivity.
  - intros Hh xy. simpl.
    destruct (binder_onMove_run (instanceProps item) (instanceGroupContext item)
                (instanceChildIdentifiers item) xy c)
      as [H|(_ & d & h & _ & Hh' & _)]; [exact H|congruence].
  - intros currentTarget [->| ->]; simpl; rewrite binder_onHover_run;
      destruct (ListContext.draggingNodeMeta c); reflexivity.
  - reflexivity.
Qed.

Lemma pointer_handlers_inert_without_drag_or_hover_witness :
  run (binder (shared := sampleShared) instance_b (PointerMove (10, 170))) idleList
  = (idleList, [])
  /\ run (binder (shared := sampleShared) instance_b (PointerMove (10, 170))) draggingA
     = (draggingA, [])
  /\ run (binder (shared := sampleShared) instance_b (PointerHover None)) hoveringG1
     = (hoveringG1, []).
Proof.
  split; [|split].
  - exact (proj1 (pointer_handlers_inert_without_drag_or_hover
                    (shared := sampleShared) instance_b idleList)
             eq_refl (PointerMove (10, 170))).
  - exact (proj1 (proj2 (pointer_handlers_inert_without_drag_or_hover
                           (shared := sampleShared) instance_b draggingA))
             eq_refl (10, 170)).
  - exact (proj1 (proj2 (proj2 (pointer_handlers_inert_without_drag_or_hover
                                  (shared := sampleShared) instance_b hoveringG1)))
             None (or_introl eq_refl)).
Defined.

(** ** Hover *)

(** X2.  During a drag, the hover handler of an item records the item as the
    hovered node exactly when the item is neither the dragging item nor has
    it among the ancestors of its group context.  It then shows the drop
    line and writes nothing else: the destination and the stacked group of
    the previous item stay as they were until a move is resolved. *)
Theorem hover_accepts_iff_not_self_nor_below
    (props : Props.t) (groupContext : GroupContext.t) (element : HTMLElement)
    (c : ListContext.t) (draggingNodeMeta : NodeMeta.t) :
  ListContext.draggingNodeMeta c = Some draggingNodeMeta ->
  let accepted :=
    Props.identifier props <> NodeMeta.identifier draggingNodeMeta
    /\ ~ In (NodeMeta.identifier draggingNodeMeta)
           (GroupContext.ancestorIdentifiers groupContext) in
  (ListContext.hoveredNodeMetaRef
     (state_after (onHover props groupContext element) c)
   = Some (meta_of props groupContext element) <-> accepted)
  /\ (accepted ->
      run (onHover props groupContext element) c
      = (ListContext.with_hoveredNodeMetaRef
           (Some (meta_of props groupContext element))
           (ListContext.with_isVisibleDropLineElement true c),
         [ESetIsVisibleDropLineElement true;
          EWriteHoveredNodeMetaRef (Some (meta_of props groupContext element))])).
Proof.
  intros Hd accepted.
  pose proof (isNeededInitialization_false_iff props groupContext c
                draggingNodeMeta Hd) as Hiff.
  fold accepted in Hiff.
  split.
  - unfold state_after. rewrite onHover_run.
    destruct (isNeededInitialization props groupContext c); simpl.
    + split; [discriminate|]. intros H. apply Hiff in H. discriminate H.
    + split; [|reflexivity]. intros _. now apply Hiff.
  - intros H. apply Hiff in H. rewrite onHover_run, H. reflexivity.
Qed.

Lemma hover_accepts_iff_not_self_nor_below_witness :
  run (onHover item_b rootGroupContext (box 144)) draggingA
  = (hoveringB,
     [ESetIsVisibleDropLineElement true;
      EWriteHoveredNodeMetaRef (Some (meta_of item_b rootGroupContext (box 144)))]).
Proof.
  apply (proj2 (hover_accepts_iff_not_self_nor_below item_b rootGroupContext
                  (box 144) draggingA
                  (meta_of item_a rootGroupContext (box 0)) eq_refl)).
  split; [discriminate|]. simpl. tauto.
Defined.

(** X3.  Whatever the list context and the event, the hover handler changes
    neither [draggingNodeMeta] nor [stackedGroupIdentifier] and calls no
    host callback.  So a hover that is rejected right after a stack clears
    the destination but leaves the group marked as stacked, and the host is
    not told. *)
Theorem hover_keeps_stacked_group_and_is_silent
    (props : Props.t) (groupContext : GroupContext.t)
    (currentTarget : option EventTarget) (c : ListContext.t) :
  let hover := binder_onHover props groupContext currentTarget in
  ListContext.stackedGroupIdentifier (state_after hover c)
  = ListContext.stackedGroupIdentifier c
  /\ ListContext.draggingNodeMeta (state_after hover c)
     = ListContext.draggingNodeMeta c
  /\ filter is_callback (trace_of hover c) = [].
Proof.
  unfold state_after, trace_of. rewrite binder_onHover_run.
  destruct (ListContext.draggingNodeMeta c) as [d|] eqn:Hd;
    [|simpl; rewrite Hd; repeat split].
  destruct currentTarget as [[element|]|]; simpl; try (rewrite Hd; repeat split).
  unfold state_after, trace_of. rewrite onHover_run.
  destruct (isNeededInitialization props groupContext c); simpl;
    rewrite Hd; repeat split.
Qed.

(** ** The drop line on the reorder path *)

(** X4.  On the reorder path of an item that is not lonely the drop line is
    switched on only when the indices of the dragging and hovered nodes
    differ.  When they are equal, whatever their groups, the visibility is
    left as it was, while the destination is recorded all the same. *)
Theorem reorder_shows_drop_line_unless_indices_coincide
    {shared : Shared} (props : Props.t) (groupContext : GroupContext.t)
    (c : ListContext.t) (draggingNodeMeta hoveredNodeMeta : NodeMeta.t)
    (absoluteXY : Z * Z) :
  isLonley props = false ->
  let c' :=
    state_after
      (onMoveForItems props groupContext draggingNodeMeta hoveredNodeMeta
         absoluteXY) c in
  (NodeMeta.index draggingNodeMeta <> NodeMeta.index hoveredNodeMeta ->
   ListContext.isVisibleDropLineElement c' = true)
  /\ (NodeMeta.index draggingNodeMeta = NodeMeta.index hoveredNodeMeta ->
      ListContext.isVisibleDropLineElement c'
      = ListContext.isVisibleDropLineElement c)
  /\ ListContext.destinationMetaRef c'
     = Some (DestinationMeta.mk (GroupContext.identifier groupContext)
               (Some (resolvedIndex c draggingNodeMeta hoveredNodeMeta absoluteXY)))
  /\ ListContext.stackedGroupIdentifier c' = None
  /\ ListContext.hoveredNodeMetaRef c' = ListContext.hoveredNodeMetaRef c
  /\ ListContext.draggingNodeMeta c' = ListContext.draggingNodeMeta c.
Proof.
  intros Hl c'. unfold c'. rewrite onMoveForItems_state, Hl.
  destruct (Z.eqb_spec (NodeMeta.index draggingNodeMeta)
              (NodeMeta.index hoveredNodeMeta)) as [Heq|Hne]; simpl;
    repeat split; intros H; congruence.
Qed.

Lemma reorder_shows_drop_line_unless_indices_coincide_witness :
  let c' :=
    state_after
      (onMoveForItems (shared := sampleShared) item_a rootGroupContext
         (meta_of item_c group_g2_context (box 100))
         (meta_of item_a rootGroupContext (box 0)) (10, 30)) stackedOnG1 in
  ListContext.isVisibleDropLineElement c' = false
  /\ ListContext.destinationMetaRef c'
     = Some (DestinationMeta.mk None (Some 1)).
Proof.
  intros c'.
  destruct (reorder_shows_drop_line_unless_indices_coincide
              (shared := sampleShared) item_a rootGroupContext stackedOnG1
              (meta_of item_c group_g2_context (box 100))
              (meta_of item_a rootGroupContext (box 0)) (10, 30) eq_refl)
    as (_ & Hsame & Hdest & _).
  split; [exact (Hsame eq_refl)|exact Hdest].
Defined.

(** ** What a gesture leaves behind *)

Lemma reset_with_draggingNodeMeta v c :
  reset (ListContext.with_draggingNodeMeta v c) = reset c.
Proof. reflexivity. Qed.

Lemma reset_with_isVisibleDropLineElement v c :
  reset (ListContext.with_isVisibleDropLineElement v c) = reset c.
Proof. reflexivity. Qed.

Lemma reset_with_stackedGroupIdentifier v c :
  reset (ListContext.with_stackedGroupIdentifier v c) = reset c.
Proof. reflexivity. Qed.

Lemma reset_with_hoveredNodeMetaRef v c :
  reset (ListContext.with_hoveredNodeMetaRef v c) = reset c.
Proof. reflexivity. Qed.

Lemma reset_with_destinationMetaRef v c :
  reset (ListContext.with_destinationMetaRef v c) = reset c.
Proof. reflexivity. Qed.

Lemma reset_clean (c : ListContext.t) : clean c -> reset c = c.
Proof.
  destruct c. unfold clean, reset. simpl.
  intros (-> & -> & -> & -> & ->). reflexivity.
Qed.

Lemma isLocked_reset (props : Props.t) (c1 c2 : ListContext.t) :
  reset c1 = reset c2 -> isLocked props c1 = isLocked props c2.
Proof.
  intros H. change (isLocked props (reset c1) = isLocked props (reset c2)).
  now rewrite H.
Qed.

Lemma onMove_state {shared : Shared} (props : Props.t)
    (groupContext : GroupContext.t) (childIdentifiersRef : list ItemIdentifier)
    (c : ListContext.t) (draggingNodeMeta hoveredNodeMeta : NodeMeta.t)
    (absoluteXY : Z * Z) :
  ListContext.draggingNodeMeta c = Some draggingNodeMeta ->
  ListContext.hoveredNodeMetaRef c = Some hoveredNodeMeta ->
  state_after (onMove props groupContext childIdentifiersRef absoluteXY) c
  = if isStackCase props childIdentifiersRef c hoveredNodeMeta absoluteXY
    then ListContext.with_destinationMetaRef
           (Some (DestinationMeta.mk (Some (Props.identifier props)) None))
           (ListContext.with_stackedGroupIdentifier (Some (Props.identifier props))
              (ListContext.with_isVisibleDropLineElement false c))
    else state_after
           (onMoveForItems props groupContext draggingNodeMeta hoveredNodeMeta
              absoluteXY) c.
Proof.
  intros Hd Hh. unfold state_after at 1.
  rewrite (onMove_dispatch props groupContext childIdentifiersRef c
             draggingNodeMeta hoveredNodeMeta absoluteXY Hd Hh).
  destruct (isStackCase props childIdentifiersRef c hoveredNodeMeta absoluteXY).
  - now rewrite onMoveForStackableGroup_run.
  - reflexivity.
Qed.

Lemma binder_keeps_configuration {shared : Shared} (item : ItemInstance)
    (e : PointerEvent) (c : ListContext.t) :
  reset (state_after (binder item e) c) = reset c.
Proof.
  destruct e as [currentTarget|xy]; simpl.
  - unfold state_after. rewrite binder_onHover_run.
    destruct (ListContext.draggingNodeMeta c); [|reflexivity].
    destruct currentTarget as [[element|]|]; try reflexivity. simpl.
    unfold state_after. rewrite onHover_run.
    destruct (isNeededInitialization _ _ c); reflexivity.
  - destruct (binder_onMove_run (instanceProps item) (instanceGroupContext item)
                (instanceChildIdentifiers item) xy c)
      as [H|(_ & d & h & Hd & Hh & H)]; unfold state_after; rewrite H;
      [reflexivity|].
    change (reset (state_after (onMove (instanceProps item)
                                  (instanceGroupContext item)
                                  (instanceChildIdentifiers item) xy) c) = reset c).
    rewrite (onMove_state _ _ _ _ d h _ Hd Hh).
    destruct (isStackCase _ _ c h xy); [reflexivity|].
    rewrite onMoveForItems_state.
    destruct (isLonley _); [reflexivity|].
    destruct (_ =? _); reflexivity.
Qed.

Lemma deliver_keeps_configuration {shared : Shared}
    (events : list (ItemInstance * PointerEvent)) (c : ListContext.t) :
  reset (state_after (deliver events) c) = reset c.
Proof.
  revert c. induction events as [|[item e] rest IH]; intros c; simpl.
  - reflexivity.
  - now rewrite state_after_bind, IH, binder_keeps_configuration.
Qed.

Lemma onDragStart_state (props : Props.t) (groupContext : GroupContext.t)
    (currentTarget : EventTarget) (c : ListContext.t) :
  state_after (draggableBinder_onDragStart props groupContext currentTarget) c
  = match currentTarget with
    | TargetElement element =>
        if isLocked props c then c
        else ListContext.with_draggingNodeMeta
               (Some (meta_of props groupContext element)) c
    | TargetOther => c
    end.
Proof.
  destruct currentTarget as [element|]; [|reflexivity].
  unfold_handler. simpl.
  destruct (isLocked props c); [reflexivity|].
  destruct (ListContext.onDragStart c); reflexivity.
Qed.

Lemma onDragEnd_state (props : Props.t) (groupContext : GroupContext.t)
    (c : ListContext.t) :
  state_after (draggableBinder_onDragEnd props groupContext) c
  = if isLocked props c then c else reset c.
Proof.
  unfold_handler. destruct (isLocked props c); reflexivity.
Qed.

(** X5.  A whole gesture is a round trip on the list context.  Start from a
    list on which nothing is left of an earlier gesture; let an unlocked
    item be pressed, let any pointer events whatever be handled by any items
    whatever, and let the item be released: the list context is the one the
    gesture started from.  From an arbitrary list context the gesture ends
    in that context with its five transient fields cleared. *)
Theorem gesture_restores_list_context
    {shared : Shared} (dragged : ItemInstance) (currentTarget : EventTarget)
    (events : list (ItemInstance * PointerEvent)) (c : ListContext.t) :
  isLocked (instanceProps dragged) c = false ->
  let gesture :=
    draggableBinder dragged (DragStart currentTarget) ;;
    deliver events ;;
    draggableBinder dragged DragEnd in
  state_after gesture c = reset c
  /\ (clean c -> state_after gesture c = c).
Proof.
  intros Hlock gesture.
  assert (H : state_after gesture c = reset c).
  { unfold gesture. rewrite !state_after_bind. simpl draggableBinder.
    rewrite onDragEnd_state.
    set (c1 := state_after (draggableBinder_onDragStart _ _ currentTarget) c).
    assert (Hc1 : reset c1 = reset c).
    { unfold c1. rewrite onDragStart_state.
      destruct currentTarget; [rewrite Hlock|]; reflexivity. }
    assert (Hc2 : reset (state_after (deliver events) c1) = reset c)
      by now rewrite deliver_keeps_configuration.
    rewrite (isLocked_reset _ _ c Hc2), Hlock. exact Hc2. }
  split; [exact H|].
  intros Hclean. now rewrite H, reset_clean.
Qed.

Lemma gesture_restores_list_context_witness :
  state_after
    (draggableBinder instance_a (DragStart (TargetElement (box 0))) ;;
     deliver (shared := sampleShared)
       [(instance_g1, PointerHover (Some (TargetElement (box 48))));
        (instance_g1, PointerMove (10, 68));
        (instance_b, PointerHover (Some (TargetElement (box 144))));
        (instance_b, PointerMove (10, 170))] ;;
     draggableBinder instance_a DragEnd) idleList
  = idleList.
Proof.
  apply (gesture_restores_list_context (shared := sampleShared) instance_a
           (TargetElement (box 0))
           [(instance_g1, PointerHover (Some (TargetElement (box 48))));
            (instance_g1, PointerMove (10, 68));
            (instance_b, PointerHover (Some (TargetElement (box 144))));
            (instance_b, PointerMove (10, 170))] idleList eq_refl).
  repeat split.
Defined.

(** ** Group contexts of a rendered tree *)

Lemma last_map_Some_In (l : list ItemIdentifier) (x : ItemIdentifier) :
  last (map Some l) None = Some x -> In x l.
Proof.
  induction l as [|y l IH]; simpl; [discriminate|].
  destruct l as [|z l'].
  - simpl. intros H. injection H as ->. now left.
  - intros H. right. apply IH. exact H.
Qed.

Lemma last_map_Some_app (l : list ItemIdentifier) (x : ItemIdentifier) :
  last (map Some (l ++ [x])) None = Some x.
Proof. rewrite map_app. simpl. apply last_last. Qed.

(** X6.  In a tree rendered under a well-formed context, every item reads a
    well-formed context: the group identifier it reports is the last entry
    of the ancestor list it extends, hence the entry just before its own
    identifier in the [ancestorIdentifiers] of its NodeMeta, and is undefined
    exactly when that list has no other entry. *)
Theorem rendered_contexts_are_well_formed
    (root : GroupContext.t) (tree : ItemTree) (groupContext : GroupContext.t)
    (props : Props.t) (element : HTMLElement) :
  contextWellFormed root ->
  In (groupContext, props) (rendered root tree) ->
  contextWellFormed groupContext
  /\ NodeMeta.groupIdentifier (meta_of props groupContext element)
     = last (map Some (removelast
                         (NodeMeta.ancestorIdentifiers
                            (meta_of props groupContext element)))) None.
Proof.
  intros Hroot Hin.
  assert (Hwf : contextWellFormed groupContext).
  { revert root groupContext props Hroot Hin.
    induction tree as [item children IH] using ItemTree_children_ind.
    intros root groupContext props Hroot Hin. simpl in Hin.
    destruct Hin as [Heq|Hin].
    - injection Heq as <- <-. exact Hroot.
    - apply in_flat_map in Hin as (child & Hchild & Hin).
      rewrite Forall_forall in IH.
      apply (IH child Hchild (providedGroupContext item root) _ props); [|exact Hin].
      unfold providedGroupContext, contextWellFormed.
      destruct (isGroup item); [|exact Hroot].
      simpl. unfold ancestorIdentifiers. now rewrite last_map_Some_app. }
  split; [exact Hwf|].
  simpl. unfold ancestorIdentifiers. rewrite removelast_last. exact Hwf.
Qed.

Lemma rendered_contexts_are_well_formed_witness :
  contextWellFormed group_g2_context
  /\ NodeMeta.groupIdentifier (meta_of item_c group_g2_context (box 100))
     = Some (IdString "g2").
Proof.
  exact (rendered_contexts_are_well_formed rootGroupContext sampleTree
           group_g2_context item_c (box 100) eq_refl
           (or_intror (or_introl eq_refl))).
Defined.

(** ** The outcomes of a pointer event *)

(** Every pointer event leaves the list context in one of six shapes. *)
Lemma binder_state {shared : Shared} (item : ItemInstance) (e : PointerEvent)
    (c : ListContext.t) :
  let props := instanceProps item in
  let groupContext := instanceGroupContext item in
  let c' := state_after (binder item e) c in
  c' = c
  \/ c' = ListContext.with_destinationMetaRef None
            (ListContext.with_hoveredNodeMetaRef None
               (ListContext.with_isVisibleDropLineElement false c))
  \/ (isNeededInitialization props groupContext c = false
      /\ exists element,
           c' = ListContext.with_hoveredNodeMetaRef
                  (Some (meta_of props groupContext element))
                  (ListContext.with_isVisibleDropLineElement true c))
  \/ (isNeededInitialization props groupContext c = false
      /\ c' = ListContext.with_destinationMetaRef
                 (Some (DestinationMeta.mk (Some (Props.identifier props)) None))
                 (ListContext.with_stackedGroupIdentifier
                    (Some (Props.identifier props))
                    (ListContext.with_isVisibleDropLineElement false c)))
  \/ c' = ListContext.with_destinationMetaRef None
            (ListContext.with_isVisibleDropLineElement false c)
  \/ (isNeededInitialization props groupContext c = false
      /\ exists index (unchanged : bool),
           c' = ListContext.with_destinationMetaRef
                  (Some (DestinationMeta.mk (GroupContext.identifier groupContext)
                           (Some index)))
                  (ListContext.with_stackedGroupIdentifier None
                     (if unchanged then c
                      else ListContext.with_isVisibleDropLineElement true c))).
Proof.
  intros props groupContext c'. unfold c', props, groupContext.
  destruct e as [currentTarget|xy]; simpl.
  - unfold state_after. rewrite binder_onHover_run.
    destruct (ListContext.draggingNodeMeta c); [|now left].
    destruct currentTarget as [[element|]|]; try now left. simpl.
    unfold state_after. rewrite onHover_run.
    destruct (isNeededInitialization _ _ c) eqn:E; simpl.
    + right. now left.
    + right. right. left. split; [reflexivity|]. now exists element.
  - destruct (binder_onMove_run (instanceProps item) (instanceGroupContext item)
                (instanceChildIdentifiers item) xy c)
      as [H|(Hinit & d & h & Hd & Hh & H)]; unfold state_after; rewrite H;
      [now left|].
    change (fst (run ?m c)) with (state_after m c).
    rewrite (onMove_state _ _ _ _ d h _ Hd Hh).
    destruct (isStackCase _ _ c h xy).
    + right. right. right. left. now split.
    + rewrite onMoveForItems_state.
      destruct (isLonley _).
      * right. right. right. right. now left.
      * right. right. right. right. right. split; [exact Hinit|].
        eexists. eexists. reflexivity.
Qed.

(** ** The dragging item is never a target *)

Lemma binder_keeps_draggingNodeMeta {shared : Shared} (item : ItemInstance)
    (e : PointerEvent) (c : ListContext.t) :
  ListContext.draggingNodeMeta (state_after (binder item e) c)
  = ListContext.draggingNodeMeta c.
Proof.
  destruct (binder_state item e c)
    as [H|[H|[(_ & el & H)|[(_ & H)|[H|(_ & i & b & H)]]]]]; rewrite H;
    try reflexivity.
  destruct b; reflexivity.
Qed.

Lemma binder_keeps_avoids {shared : Shared} (item : ItemInstance)
    (e : PointerEvent) (c : ListContext.t) (draggingNodeMeta : NodeMeta.t) :
  ListContext.draggingNodeMeta c = Some draggingNodeMeta ->
  contextWellFormed (instanceGroupContext item) ->
  avoids (NodeMeta.identifier draggingNodeMeta) c ->
  avoids (NodeMeta.identifier draggingNodeMeta) (state_after (binder item e) c).
Proof.
  intros Hd Hwf (Hs & Hdest & Hhov).
  pose proof (isNeededInitialization_false_iff (instanceProps item)
                (instanceGroupContext item) c draggingNodeMeta Hd) as Hiff.
  destruct (binder_state item e c)
    as [H|[H|[(Hi & el & H)|[(Hi & H)|[H|(Hi & i & b & H)]]]]]; rewrite H;
    clear H; unfold avoids; simpl.
  - split; [exact Hs|split; [exact Hdest|exact Hhov]].
  - split; [exact Hs|split; discriminate].
  - apply Hiff in Hi as [Hne Hnin].
    split; [exact Hs|split; [exact Hdest|]].
    intros hovered Heq. injection Heq as <-. simpl. split.
    + congruence.
    + unfold ancestorIdentifiers. rewrite in_app_iff. simpl.
      intros [Hin|[Heq|[]]]; [contradiction|congruence].
  - apply Hiff in Hi as [Hne Hnin].
    split; [congruence|split; [|exact Hhov]].
    intros destination Heq. injection Heq as <-. simpl. congruence.
  - split; [exact Hs|split; [discriminate|exact Hhov]].
  - apply Hiff in Hi as [Hne Hnin].
    assert (Hgroup : GroupContext.identifier (instanceGroupContext item)
                     <> Some (NodeMeta.identifier draggingNodeMeta)).
    { intros Heq. apply Hnin. apply last_map_Some_In.
      rewrite <- Heq. symmetry. exact Hwf. }
    destruct b; simpl; (split; [discriminate|split; [|exact Hhov]]);
      intros destination Heq; injection Heq as <-; exact Hgroup.
Qed.

Lemma deliver_keeps_avoids {shared : Shared}
    (events : list (ItemInstance * PointerEvent)) :
  forall (c : ListContext.t) (draggingNodeMeta : NodeMeta.t),
    ListContext.draggingNodeMeta c = Some draggingNodeMeta ->
    Forall (fun delivery => contextWellFormed (instanceGroupContext (fst delivery)))
           events ->
    avoids (NodeMeta.identifier draggingNodeMeta) c ->
    ListContext.draggingNodeMeta (state_after (deliver events) c)
    = Some draggingNodeMeta
    /\ avoids (NodeMeta.identifier draggingNodeMeta)
              (state_after (deliver events) c).
Proof.
  induction events as [|[item e] rest IH]; intros c d Hd Hwf Hav; simpl.
  - split; assumption.
  - rewrite state_after_bind. inversion Hwf as [|? ? Hitem Hrest]; subst.
    apply IH.
    + now rewrite binder_keeps_draggingNodeMeta.
    + exact Hrest.
    + now apply binder_keeps_avoids.
Qed.

(** X7.  Throughout a gesture the dragging item is never a target.  Press an
    unlocked item on a list on which nothing is left of an earlier gesture,
    then let any pointer events be handled by any items whose group context
    is well formed (as every context of a rendered tree is).  At every such
    point the dragging node is still the pressed item, and neither the
    stacked group, nor the group of the recorded destination, nor the
    recorded hovered node is that item; the hovered node is not below it
    either. *)
Theorem dragging_item_is_never_a_target
    {shared : Shared} (dragged : ItemInstance) (element : HTMLElement)
    (events : list (ItemInstance * PointerEvent)) (c : ListContext.t) :
  clean c ->
  isLocked (instanceProps dragged) c = false ->
  Forall (fun delivery => contextWellFormed (instanceGroupContext (fst delivery)))
         events ->
  let c' :=
    state_after
      (draggableBinder dragged (DragStart (TargetElement element)) ;;
       deliver events) c in
  ListContext.draggingNodeMeta c'
  = Some (meta_of (instanceProps dragged) (instanceGroupContext dragged) element)
  /\ avoids (Props.identifier (instanceProps dragged)) c'.
Proof.
  intros (Hd & Hv & Hs & Hh & Hdest) Hlock Hwf c'. unfold c'.
  rewrite state_after_bind.
  change (draggableBinder dragged (DragStart (TargetElement element)))
    with (draggableBinder_onDragStart (instanceProps dragged)
            (instanceGroupContext dragged) (TargetElement element)).
  rewrite onDragStart_state, Hlock.
  apply (deliver_keeps_avoids events _
           (meta_of (instanceProps dragged) (instanceGroupContext dragged) element));
    [reflexivity|exact Hwf|].
  unfold avoids. simpl. rewrite Hs, Hh, Hdest.
  split; [discriminate|split; discriminate].
Qed.

Lemma dragging_item_is_never_a_target_witness :
  let c' :=
    state_after
      (draggableBinder instance_g2 (DragStart (TargetElement (box 96))) ;;
       deliver (shared := sampleShared)
         [(instance_c, PointerHover (Some (TargetElement (box 100))));
          (instance_c, PointerMove (10, 110));
          (instance_g1, PointerHover (Some (TargetElement (box 48))));
          (instance_g1, PointerMove (10, 68))]) idleList in
  ListContext.draggingNodeMeta c'
  = Some (meta_of group_g2 rootGroupContext (box 96))
  /\ avoids (IdString "g2") c'.
Proof.
  apply (dragging_item_is_never_a_target (shared := sampleShared) instance_g2
           (box 96)
           [(instance_c, PointerHover (Some (TargetElement (box 100))));
            (instance_c, PointerMove (10, 110));
            (instance_g1, PointerHover (Some (TargetElement (box 48))));
            (instance_g1, PointerMove (10, 68))] idleList).
  - repeat split.
  - reflexivity.
  - repeat constructor.
Defined.

(** ** Stack destinations and the stacked group *)

Lemma draggableBinder_state_cases (item : ItemInstance) (e : DragEvent)
    (c : ListContext.t) :
  state_after (draggableBinder item e) c = c
  \/ state_after (draggableBinder item e) c = reset c
  \/ exists v, state_after (draggableBinder item e) c
               = ListContext.with_draggingNodeMeta v c.
Proof.
  destruct e as [currentTarget|down movement|]; simpl.
  - rewrite onDragStart_state. destruct currentTarget as [element|]; [|now left].
    destruct (isLocked _ c); [now left|]. right. right. eexists. reflexivity.
  - left. unfold_handler. destruct (isLocked _ c), down; reflexivity.
  - rewrite onDragEnd_state. destruct (isLocked _ c); [now left|right; now left].
Qed.

(** X8.  Every handler of every item keeps the following invariant of the
    list context: a recorded destination whose index is undefined names a
    group, and that group is the one marked as stacked.  It holds on a list
    with no destination, so it holds all along any sequence of events; and
    at a drag-end, a report whose [nextIndex] is undefined always names, as
    [nextGroupIdentifier], the group marked as stacked at that moment. *)
Theorem stack_destination_names_the_stacked_group
    {shared : Shared} (item : ItemInstance) (c : ListContext.t) :
  stackConsistent c ->
  (forall e, stackConsistent (state_after (binder item e) c))
  /\ (forall e, stackConsistent (state_after (draggableBinder item e) c))
  /\ (forall meta,
        In (ECallOnDragEnd meta) (trace_of (draggableBinder item DragEnd) c) ->
        DragEndMeta.nextIndex meta = None ->
        DragEndMeta.nextGroupIdentifier meta <> None
        /\ ListContext.stackedGroupIdentifier c
           = DragEndMeta.nextGroupIdentifier meta).
Proof.
  intros Hinv. split; [|split].
  - intros e.
    destruct (binder_state item e c)
      as [H|[H|[(_ & el & H)|[(_ & H)|[H|(_ & i & b & H)]]]]]; rewrite H;
      clear H; unfold stackConsistent; simpl; try discriminate.
    + exact Hinv.
    + exact Hinv.
    + intros destination Heq _. injection Heq as <-. simpl.
      split; [discriminate|reflexivity].
    + intros destination Heq Hnone. injection Heq as <-. discriminate Hnone.
  - intros e.
    destruct (draggableBinder_state_cases item e c) as [H|[H|[v H]]]; rewrite H.
    + exact Hinv.
    + unfold stackConsistent. simpl. discriminate.
    + exact Hinv.
  - intros meta. simpl. unfold_handler.
    destruct (isLocked (instanceProps item) c); simpl; [tauto|].
    intros Hin.
    repeat (destruct Hin as [Hin|Hin]; [try discriminate Hin|]); [|destruct Hin].
    injection Hin as <-. simpl.
    destruct (ListContext.destinationMetaRef c) as [destination|] eqn:Hdest;
      [|discriminate].
    intros Hnone. exact (Hinv destination Hdest Hnone).
Qed.

Lemma stack_destination_names_the_stacked_group_witness :
  stackConsistent
    (state_after (binder (shared := sampleShared) instance_g1 (PointerMove (10, 68)))
       hoveringG1)
  /\ stackConsistent
       (state_after (draggableBinder instance_a DragEnd) stackedOnG1).
Proof.
  assert (H : stackConsistent hoveringG1).
  { intros destination Heq. discriminate Heq. }
  assert (H' : stackConsistent stackedOnG1).
  { intros destination Heq _. injection Heq as <-.
    split; [discriminate|reflexivity]. }
  split.
  - exact (proj1 (stack_destination_names_the_stacked_group
                    (shared := sampleShared) instance_g1 hoveringG1 H)
             (PointerMove (10, 68))).
  - exact (proj1 (proj2 (stack_destination_names_the_stacked_group
                           (shared := sampleShared) instance_a stackedOnG1 H'))
             DragEnd).
Defined.

(** ** Redundant events *)

(** X9.  Handling the same pointer event twice in a row leaves the list
    context as handling it once does: the hover and move handlers of every
    item are idempotent on the list context (the second run may repeat
    calls on the DOM and to the host, it does not change what is
    recorded). *)
Theorem pointer_events_are_idempotent_on_the_list
    {shared : Shared} (item : ItemInstance) (e : PointerEvent)
    (c : ListContext.t) :
  state_after (binder item e ;; binder item e) c
  = state_after (binder item e) c.
Proof.
  rewrite state_after_bind.
  destruct item as [props groupContext childIdentifiersRef].
  destruct e as [currentTarget|xy]; simpl binder.
  - unfold state_after. rewrite !binder_onHover_run.
    destruct (ListContext.draggingNodeMeta c) as [d|] eqn:Hd;
      [|simpl; now rewrite Hd].
    destruct currentTarget as [[element|]|]; simpl; try now rewrite Hd.
    unfold state_after. rewrite onHover_run.
    destruct (isNeededInitialization props groupContext c) eqn:E; simpl;
      rewrite Hd; simpl; rewrite onHover_run;
      unfold isNeededInitialization in *; simpl; rewrite Hd in *; rewrite E;
      reflexivity.
  - unfold state_after. rewrite (binder_onMove_eq props groupContext _ xy c).
    destruct (ListContext.draggingNodeMeta c) as [d|] eqn:Hd;
      [|simpl; now rewrite binder_onMove_eq, Hd].
    destruct ((0 <? size childIdentifiersRef) && _) eqn:G1;
      [simpl; now rewrite binder_onMove_eq, Hd, G1|].
    destruct (isNeededInitialization props groupContext c) eqn:G2;
      [simpl; now rewrite binder_onMove_eq, Hd, G1, G2|].
    destruct (ListContext.hoveredNodeMetaRef c) as [h|] eqn:Hh.
    + change (fst (run ?m c)) with (state_after m c).
      rewrite (onMove_state _ _ _ _ d h _ Hd Hh).
      destruct (isStackCase props childIdentifiersRef c h xy) eqn:S.
      * rewrite binder_onMove_eq. simpl. rewrite Hd, Hh, G1.
        unfold isNeededInitialization in *. simpl. rewrite Hd in *. rewrite G2.
        change (fst (run ?m ?x)) with (state_after m x).
        erewrite onMove_state; [|simpl; exact Hd|simpl; exact Hh].
        unfold isStackCase in *. simpl. rewrite S. reflexivity.
      * rewrite onMoveForItems_state.
        destruct (isLonley props) eqn:L.
        -- rewrite binder_onMove_eq. simpl. rewrite Hd, Hh, G1.
           unfold isNeededInitialization in *. simpl. rewrite Hd in *. rewrite G2.
           change (fst (run ?m ?x)) with (state_after m x).
           erewrite onMove_state; [|simpl; exact Hd|simpl; exact Hh].
           unfold isStackCase in *. simpl. rewrite S.
           rewrite onMoveForItems_state, L. reflexivity.
        -- destruct (NodeMeta.index d =? NodeMeta.index h) eqn:I;
             rewrite binder_onMove_eq; simpl; rewrite Hd, Hh, G1;
             unfold isNeededInitialization in *; simpl; rewrite Hd in *;
             rewrite G2;
             change (fst (run ?m ?x)) with (state_after m x);
             (erewrite onMove_state; [|simpl; exact Hd|simpl; exact Hh]);
             unfold isStackCase in *; simpl; rewrite S;
             rewrite onMoveForItems_state, L, I; reflexivity.
    + unfold run at 2. unfold onMove, bind, get, ret. rewrite Hd, Hh. simpl.
      now rewrite binder_onMove_eq, Hd, Hh, G1, G2.
Qed.

(** ** Calls to the host *)

Lemma onMoveForItems_callbacks {shared : Shared} (props : Props.t)
    (groupContext : GroupContext.t) (c : ListContext.t)
    (draggingNodeMeta hoveredNodeMeta : NodeMeta.t) (absoluteXY : Z * Z) :
  filter is_callback
    (trace_of
       (onMoveForItems props groupContext draggingNodeMeta hoveredNodeMeta
          absoluteXY) c)
  = if negb (isLonley props) && isComeFromStackedGroup c
       && ListContext.onStackGroup c
    then [ECallOnStackGroup
            (StackGroupMeta.mk (Props.identifier props)
               (GroupContext.identifier groupContext) (Props.index props)
               (isGroup props) None)]
    else [].
Proof.
  destruct (isLonley props) eqn:Hl.
  - unfold_handler. rewrite Hl. reflexivity.
  - rewrite (onMoveForItems_trace props groupContext c draggingNodeMeta
               hoveredNodeMeta absoluteXY Hl).
    rewrite !filter_app. simpl negb. simpl andb.
    destruct (NodeMeta.index draggingNodeMeta =? NodeMeta.index hoveredNodeMeta);
      destruct (isComeFromStackedGroup c && ListContext.onStackGroup c);
      reflexivity.
Qed.

(** X10.  The host hears of a group being left exactly once.  The first
    reorder resolved after a stack, on an item that is not lonely, makes one
    un-stack call; it carries the identity of the item now under the
    pointer, not of the group that was stacked.  A reorder that follows a
    resolved reorder makes no call at all. *)
Theorem unstack_is_reported_once
    {shared : Shared} (props : Props.t) (groupContext : GroupContext.t)
    (earlier : Props.t) (earlierContext : GroupContext.t)
    (c : ListContext.t) (draggingNodeMeta hoveredNodeMeta : NodeMeta.t)
    (absoluteXY : Z * Z) (earlierDragging earlierHovered : NodeMeta.t)
    (earlierXY : Z * Z) :
  let reorder :=
    onMoveForItems props groupContext draggingNodeMeta hoveredNodeMeta absoluteXY in
  (isLonley props = false ->
   ListContext.onStackGroup c = true ->
   filter is_callback
     (trace_of reorder
        (state_after (onMoveForStackableGroup earlier earlierContext earlierHovered) c))
   = [ECallOnStackGroup
        (StackGroupMeta.mk (Props.identifier props)
           (GroupContext.identifier groupContext) (Props.index props)
           (isGroup props) None)])
  /\ (isLonley earlier = false ->
      filter is_callback
        (trace_of reorder
           (state_after
              (onMoveForItems earlier earlierContext earlierDragging
                 earlierHovered earlierXY) c))
      = []).
Proof.
  intros reorder. unfold reorder. split.
  - intros Hl Hcb. rewrite onMoveForItems_callbacks, Hl.
    unfold state_after. rewrite onMoveForStackableGroup_run. simpl.
    rewrite Hcb. reflexivity.
  - intros Hl. rewrite onMoveForItems_callbacks, onMoveForItems_state, Hl.
    unfold isComeFromStackedGroup. simpl.
    destruct (GroupContext.identifier earlierContext);
      destruct (negb (isLonley props)); reflexivity.
Qed.

Lemma unstack_is_reported_once_witness :
  filter is_callback
    (trace_of
       (onMoveForItems (shared := sampleShared) item_b rootGroupContext
          (meta_of item_a rootGroupContext (box 0))
          (meta_of item_b rootGroupContext (box 144)) (10, 170))
       (state_after
          (onMoveForStackableGroup group_g1 rootGroupContext
             (meta_of group_g1 rootGroupContext (box 48))) hoveringG1))
  = [ECallOnStackGroup (StackGroupMeta.mk (IdString "b") None 3 false None)]
  /\ filter is_callback
       (trace_of
          (onMoveForItems (shared := sampleShared) item_b rootGroupContext
             (meta_of item_a rootGroupContext (box 0))
             (meta_of item_b rootGroupContext (box 144)) (10, 170))
          (state_after
             (onMoveForItems (shared := sampleShared) group_g1 rootGroupContext
                (meta_of item_a rootGroupContext (box 0))
                (meta_of group_g1 rootGroupContext (box 48)) (10, 50))
             stackedOnG1))
     = [].
Proof.
  destruct (unstack_is_reported_once (shared := sampleShared) item_b
              rootGroupContext group_g1 rootGroupContext hoveringG1
              (meta_of item_a rootGroupContext (box 0))
              (meta_of item_b rootGroupContext (box 144)) (10, 170)
              (meta_of item_a rootGroupContext (box 0))
              (meta_of group_g1 rootGroupContext (box 48)) (10, 50))
    as [Hfirst _].
  destruct (unstack_is_reported_once (shared := sampleShared) item_b
              rootGroupContext group_g1 rootGroupContext stackedOnG1
              (meta_of item_a rootGroupContext (box 0))
              (meta_of item_b rootGroupContext (box 144)) (10, 170)
              (meta_of item_a rootGroupContext (box 0))
              (meta_of group_g1 rootGroupContext (box 48)) (10, 50))
    as [_ Hnext].
  split; [exact (Hfirst eq_refl eq_refl)|exact (Hnext eq_refl)].
Defined.

Lemma onDragEnd_callbacks (props : Props.t) (groupContext : GroupContext.t)
    (c : ListContext.t) :
  isLocked props c = false ->
  filter is_callback (trace_of (draggableBinder_onDragEnd props groupContext) c)
  = [ECallOnDragEnd
       (DragEndMeta.mk (Props.identifier props)
          (GroupContext.identifier groupContext) (Props.index props)
          (isGroup props)
          (match ListContext.destinationMetaRef c with
           | Some d => DestinationMeta.groupIdentifier d
           | None => GroupContext.identifier groupContext
           end)
          (match ListContext.destinationMetaRef c with
           | Some d => DestinationMeta.index d
           | None => Some (Props.index props)
           end))].
Proof.
  intros Hlock. unfold_handler. rewrite Hlock. reflexivity.
Qed.

(** X11.  What a release reports is what the last move resolved.  With a
    drag active and a hover recorded, let [onMove] run on an item and let
    the dragged, unlocked item be released next.  The single call to the
    drag-end callback then reports: the item moved over with an undefined
    index when the move was a stack; the dragged item's own group and index
    when the item moved over is lonely; and otherwise the group of the item
    moved over with the index the move resolved. *)
Theorem release_reports_what_the_last_move_resolved
    {shared : Shared} (dragged : Props.t) (draggedContext : GroupContext.t)
    (props : Props.t) (groupContext : GroupContext.t)
    (childIdentifiersRef : list ItemIdentifier) (c : ListContext.t)
    (draggingNodeMeta hoveredNodeMeta : NodeMeta.t) (absoluteXY : Z * Z) :
  isLocked dragged c = false ->
  ListContext.draggingNodeMeta c = Some draggingNodeMeta ->
  ListContext.hoveredNodeMetaRef c = Some hoveredNodeMeta ->
  filter is_callback
    (trace_of (draggableBinder_onDragEnd dragged draggedContext)
       (state_after (onMove props groupContext childIdentifiersRef absoluteXY) c))
  = [ECallOnDragEnd
       (DragEndMeta.mk (Props.identifier dragged)
          (GroupContext.identifier draggedContext) (Props.index dragged)
          (isGroup dragged)
          (if isStackCase props childIdentifiersRef c hoveredNodeMeta absoluteXY
           then Some (Props.identifier props)
           else if isLonley props then GroupContext.identifier draggedContext
           else GroupContext.identifier groupContext)
          (if isStackCase props childIdentifiersRef c hoveredNodeMeta absoluteXY
           then None
           else if isLonley props then Some (Props.index dragged)
           else Some (resolvedIndex c draggingNodeMeta hoveredNodeMeta absoluteXY)))].
Proof.
  intros Hlock Hd Hh.
  rewrite (onMove_state props groupContext childIdentifiersRef c
             draggingNodeMeta hoveredNodeMeta absoluteXY Hd Hh).
  destruct (isStackCase props childIdentifiersRef c hoveredNodeMeta absoluteXY).
  - rewrite onDragEnd_callbacks; [reflexivity|exact Hlock].
  - rewrite onMoveForItems_state.
    destruct (isLonley props).
    + rewrite onDragEnd_callbacks; [reflexivity|exact Hlock].
    + destruct (NodeMeta.index draggingNodeMeta =? NodeMeta.index hoveredNodeMeta);
        (rewrite onDragEnd_callbacks; [reflexivity|exact Hlock]).
Qed.

Lemma release_reports_what_the_last_move_resolved_witness :
  filter is_callback
    (trace_of (draggableBinder_onDragEnd item_a rootGroupContext)
       (state_after (onMove (shared := sampleShared) group_g1 rootGroupContext []
                       (10, 68)) hoveringG1))
  = [ECallOnDragEnd
       (DragEndMeta.mk (IdString "a") None 0 false (Some (IdString "g1")) None)].
Proof.
  exact (release_reports_what_the_last_move_resolved (shared := sampleShared)
           item_a rootGroupContext group_g1 rootGroupContext [] hoveringG1
           (meta_of item_a rootGroupContext (box 0))
           (meta_of group_g1 rootGroupContext (box 48)) (10, 68)
           eq_refl eq_refl eq_refl).
Defined.

(** ** Registration of children *)

Lemma set_delete_In (x y : ItemIdentifier) (s : list ItemIdentifier) :
  In y (set_delete x s) <-> In y s /\ y <> x.
Proof.
  unfold set_delete. rewrite filter_In.
  destruct (identifier_eqb_spec y x); simpl; intuition congruence.
Qed.

Lemma set_add_In (x y : ItemIdentifier) (s : list ItemIdentifier) :
  In y (set_add x s) <-> In y s \/ y = x.
Proof.
  unfold set_add. destruct (includes s x) eqn:E.
  - apply includes_In in E. intuition congruence.
  - rewrite in_app_iff. simpl. intuition congruence.
Qed.

Lemma set_delete_absent (x : ItemIdentifier) (s : list ItemIdentifier) :
  ~ In x s -> set_delete x s = s.
Proof.
  induction s as [|y s IH]; simpl; [reflexivity|]. intros Hnin.
  destruct (identifier_eqb_spec y x) as [->|_]; simpl.
  - elim Hnin. now left.
  - rewrite IH; [reflexivity|]. intros H. apply Hnin. now right.
Qed.

(** X12.  Registration is a round trip on the group's set of children.
    Mounting puts the item's identifier in the set and unmounting removes
    it; neither touches the other identifiers nor introduces a repetition;
    mounting twice is mounting once; and mounting an item that was not
    registered and unmounting it again gives back the set as it was. *)
Theorem mount_then_unmount_restores_children
    (props : Props.t) (groupChildIdentifiers : list ItemIdentifier) :
  NoDup groupChildIdentifiers ->
  let own := Props.identifier props in
  let mounted := mountEffect props groupChildIdentifiers in
  NoDup mounted
  /\ NoDup (unmountEffect props groupChildIdentifiers)
  /\ In own mounted
  /\ ~ In own (unmountEffect props mounted)
  /\ mountEffect props mounted = mounted
  /\ (forall other, other <> own ->
        (In other mounted <-> In other groupChildIdentifiers)
        /\ (In other (unmountEffect props groupChildIdentifiers)
            <-> In other groupChildIdentifiers))
  /\ (~ In own groupChildIdentifiers ->
      unmountEffect props mounted = groupChildIdentifiers).
Proof.
  intros Hnd own mounted. unfold mounted, mountEffect, unmountEffect. fold own.
  repeat match goal with |- _ /\ _ => split end.
  - unfold set_add. destruct (includes groupChildIdentifiers own) eqn:E;
      [exact Hnd|].
    apply NoDup_app; [exact Hnd|repeat constructor; intros []|].
    intros x Hx [<-|[]]. apply includes_In in Hx. congruence.
  - unfold set_delete. now apply NoDup_filter.
  - apply set_add_In. now right.
  - rewrite set_delete_In. intros [_ H]. now apply H.
  - unfold set_add at 1.
    assert (H : includes (set_add own groupChildIdentifiers) own = true).
    { apply includes_In, set_add_In. now right. }
    now rewrite H.
  - intros other Hne. rewrite set_add_In, set_delete_In. tauto.
  - intros Hnin. unfold set_add.
    rewrite (includes_false _ _ Hnin). unfold set_delete.
    rewrite filter_app. simpl. rewrite identifier_eqb_refl. simpl.
    rewrite app_nil_r. now apply set_delete_absent.
Qed.

Lemma mount_then_unmount_restores_children_witness :
  mountEffect item_c [IdString "d"] = [IdString "d"; IdString "c"]
  /\ unmountEffect item_c (mountEffect item_c [IdString "d"]) = [IdString "d"].
Proof.
  destruct (mount_then_unmount_restores_children item_c [IdString "d"])
    as (_ & _ & _ & _ & _ & _ & Hround).
  - repeat constructor. intros [].
  - split; [reflexivity|]. apply Hround. intros [H|[]]. discriminate H.
Defined.

(** X13.  A group in whose set a child is registered is never a stack
    target: whatever the pointer position and the threshold, [onMove] on it
    is the reorder path.  Once its last child has unmounted, a move in the
    stackable area stacks into it again. *)
Theorem group_with_mounted_child_is_not_stackable
    {shared : Shared} (props : Props.t) (groupContext : GroupContext.t)
    (child : Props.t) (childIdentifiersRef : list ItemIdentifier)
    (c : ListContext.t) (draggingNodeMeta hoveredNodeMeta : NodeMeta.t)
    (absoluteXY : Z * Z) :
  ListContext.draggingNodeMeta c = Some draggingNodeMeta ->
  ListContext.hoveredNodeMetaRef c = Some hoveredNodeMeta ->
  run (onMove props groupContext (mountEffect child childIdentifiersRef) absoluteXY) c
  = run (onMoveForItems props groupContext draggingNodeMeta hoveredNodeMeta
           absoluteXY) c
  /\ (isGroup props = true ->
      checkIsInStackableArea absoluteXY hoveredNodeMeta
        (ListContext.stackableAreaThreshold c) (ListContext.direction c) = true ->
      run (onMove props groupContext
             (unmountEffect child (mountEffect child [])) absoluteXY) c
      = run (onMoveForStackableGroup props groupContext hoveredNodeMeta) c).
Proof.
  intros Hd Hh. split.
  - rewrite (onMove_dispatch props groupContext _ c draggingNodeMeta
               hoveredNodeMeta absoluteXY Hd Hh).
    destruct (isStackCase props (mountEffect child childIdentifiersRef) c
                hoveredNodeMeta absoluteXY) eqn:E; [|reflexivity].
    apply isStackCase_true_iff in E as (_ & Hempty & _).
    assert (Hin : In (Props.identifier child)
                     (mountEffect child childIdentifiersRef))
      by (apply set_add_In; now right).
    rewrite Hempty in Hin. destruct Hin.
  - intros Hg Harea.
    rewrite (onMove_dispatch props groupContext _ c draggingNodeMeta
               hoveredNodeMeta absoluteXY Hd Hh).
    assert (Hempty : unmountEffect child (mountEffect child []) = []).
    { unfold unmountEffect, mountEffect, set_add, set_delete. simpl.
      now rewrite identifier_eqb_refl. }
    rewrite (proj2 (isStackCase_true_iff props _ c hoveredNodeMeta absoluteXY)
               (conj Hg (conj Hempty Harea))).
    reflexivity.
Qed.

Lemma group_with_mounted_child_is_not_stackable_witness :
  ListContext.destinationMetaRef
    (state_after
       (onMove (shared := sampleShared) group_g1 rootGroupContext
          (mountEffect item_c []) (10, 68)) hoveringG1)
  = Some (DestinationMeta.mk None (Some 1)).
Proof.
  destruct (group_with_mounted_child_is_not_stackable (shared := sampleShared)
              group_g1 rootGroupContext item_c [] hoveringG1
              (meta_of item_a rootGroupContext (box 0))
              (meta_of group_g1 rootGroupContext (box 48)) (10, 68)
              eq_refl eq_refl) as [Hreorder _].
  unfold state_after. rewrite Hreorder. reflexivity.
Defined.

(** ** The rendered element *)

(** X14.  What an item renders inside its [div] is decided as follows.  It
    is the stacked-group element exactly when the item is the group marked
    as stacked and the host supplied [renderStackedGroup]; this takes
    precedence over the placeholder.  Otherwise it is the placeholder
    exactly when the item is the dragging item and the host supplied
    [renderPlaceholder].  Otherwise it is the item's own children.  The
    padding is half the item spacing on the axis of the list and zero on the
    other. *)
Theorem contentElement_children_selection
    (props : Props.t) (groupContext : GroupContext.t) (renderers : Renderers.t)
    (c : ListContext.t) :
  let element := contentElement props groupContext renderers c in
  let meta :=
    RendererMeta.mk (Props.identifier props)
      (GroupContext.identifier groupContext) (Props.index props) in
  let stacked :=
    ListContext.stackedGroupIdentifier c = Some (Props.identifier props)
    /\ Renderers.renderStackedGroup renderers = true in
  let placeholder dragging :=
    ListContext.draggingNodeMeta c = Some dragging
    /\ NodeMeta.identifier dragging = Props.identifier props
    /\ Renderers.renderPlaceholder renderers = true in
  (stacked ->
   Element.children element
   = StackedGroupElement (ListContext.hoveredNodeMetaRef c)
       (ListContext.itemSpacing c) (ListContext.direction c) meta)
  /\ (forall dragging, ~ stacked -> placeholder dragging ->
        Element.children element
        = PlaceholderElement dragging (ListContext.itemSpacing c)
            (ListContext.direction c) meta (isGroup props))
  /\ (~ stacked -> (forall dragging, ~ placeholder dragging) ->
      Element.children element = PropsChildren)
  /\ Element.padding element
     = match ListContext.direction c with
       | vertical => (Px (ListContext.itemSpacing c # 2), Zero)
       | horizontal => (Zero, Px (ListContext.itemSpacing c # 2))
       end.
Proof.
  intros element meta stacked placeholder.
  unfold element, contentElement, stacked, placeholder. simpl.
  split; [|split; [|split]].
  - intros [-> ->]. simpl. now rewrite identifier_eqb_refl.
  - intros dragging Hns (-> & Hid & ->).
    destruct (identifier_eqb_spec (Props.identifier props)
                (NodeMeta.identifier dragging)) as [_|Hne];
      [|now elim Hne].
    simpl.
    destruct (group_eqb_spec (ListContext.stackedGroupIdentifier c)
                (Some (Props.identifier props))) as [Heq|_];
      destruct (Renderers.renderStackedGroup renderers) eqn:Hr; simpl;
      try reflexivity.
    elim Hns. now split.
  - intros Hns Hnp.
    assert (H1 : group_eqb (ListContext.stackedGroupIdentifier c)
                   (Some (Props.identifier props))
                 && Renderers.renderStackedGroup renderers = false).
    { destruct (group_eqb_spec (ListContext.stackedGroupIdentifier c)
                  (Some (Props.identifier props))) as [Heq|_];
        destruct (Renderers.renderStackedGroup renderers); try reflexivity.
      elim Hns. now split. }
    rewrite H1.
    destruct (ListContext.draggingNodeMeta c) as [d|]; [|reflexivity].
    destruct (identifier_eqb_spec (Props.identifier props) (NodeMeta.identifier d))
      as [Heq|_];
      destruct (Renderers.renderPlaceholder renderers); try reflexivity.
    elim (Hnp d). repeat split. now symmetry.
  - destruct (ListContext.direction c); reflexivity.
Qed.

Lemma contentElement_children_selection_witness :
  Element.children (contentElement group_g1 rootGroupContext bothRenderers stackedOnG1)
  = StackedGroupElement (Some (meta_of group_g1 rootGroupContext (box 48))) 8
      vertical (RendererMeta.mk (IdString "g1") None 1)
  /\ Element.children (contentElement item_a rootGroupContext bothRenderers stackedOnG1)
     = PlaceholderElement (meta_of item_a rootGroupContext (box 0)) 8 vertical
         (RendererMeta.mk (IdString "a") None 0) false.
Proof.
  split.
  - apply (proj1 (contentElement_children_selection group_g1 rootGroupContext
                    bothRenderers stackedOnG1)).
    split; reflexivity.
  - apply (proj1 (proj2 (contentElement_children_selection item_a rootGroupContext
                           bothRenderers stackedOnG1))
             (meta_of item_a rootGroupContext (box 0))).
    + intros [H _]. discriminate H.
    + repeat split.
Defined.

(** X15.  During a gesture the pressed item is shown as its placeholder and
    never as a stacked group.  Press an unlocked item on a list on which
    nothing is left of an earlier gesture, let any pointer events be handled
    by items with well-formed group contexts, and render the pressed item:
    with [renderPlaceholder] supplied its content is the placeholder built
    from the NodeMeta of the press, whether or not [renderStackedGroup] is
    supplied; and on the list before the press every item renders its own
    children. *)
Theorem pressed_item_renders_its_placeholder
    {shared : Shared} (dragged : ItemInstance) (element : HTMLElement)
    (events : list (ItemInstance * PointerEvent)) (renderers : Renderers.t)
    (c : ListContext.t) :
  clean c ->
  isLocked (instanceProps dragged) c = false ->
  Forall (fun delivery => contextWellFormed (instanceGroupContext (fst delivery)))
         events ->
  Renderers.renderPlaceholder renderers = true ->
  let props := instanceProps dragged in
  let groupContext := instanceGroupContext dragged in
  let c' :=
    state_after
      (draggableBinder dragged (DragStart (TargetElement element)) ;;
       deliver events) c in
  Element.children (contentElement props groupContext renderers c')
  = PlaceholderElement (meta_of props groupContext element)
      (ListContext.itemSpacing c) (ListContext.direction c)
      (RendererMeta.mk (Props.identifier props)
         (GroupContext.identifier groupContext) (Props.index props))
      (isGroup props)
  /\ (forall other otherContext,
        Element.children (contentElement other otherContext renderers c)
        = PropsChildren).
Proof.
  intros Hclean Hlock Hwf Hrender props groupContext c'.
  subst props groupContext.
  set (props := instanceProps dragged) in *.
  set (groupContext := instanceGroupContext dragged) in *.
  assert (Hstart :
    state_after (draggableBinder dragged (DragStart (TargetElement element))) c
    = ListContext.with_draggingNodeMeta
        (Some (meta_of props groupContext element)) c).
  { change (draggableBinder dragged (DragStart (TargetElement element)))
      with (draggableBinder_onDragStart props groupContext (TargetElement element)).
    now rewrite onDragStart_state, Hlock. }
  split.
  - assert (Hc' : ListContext.draggingNodeMeta c'
                  = Some (meta_of props groupContext element)
                  /\ avoids (Props.identifier props) c').
    { destruct Hclean as (Hd & Hv & Hs & Hh & Hdest).
      unfold c'. rewrite state_after_bind, Hstart.
      apply (deliver_keeps_avoids events _ (meta_of props groupContext element));
        [reflexivity|exact Hwf|].
      unfold avoids. simpl. rewrite Hs, Hh, Hdest.
      split; [discriminate|split; discriminate]. }
    destruct Hc' as (Hdrag & Hstack & _).
    assert (Hconf : reset c' = reset c).
    { unfold c'. now rewrite state_after_bind, deliver_keeps_configuration, Hstart. }
    assert (Hsp : ListContext.itemSpacing c' = ListContext.itemSpacing c)
      by (change (ListContext.itemSpacing (reset c')
                  = ListContext.itemSpacing (reset c)); now rewrite Hconf).
    assert (Hdir : ListContext.direction c' = ListContext.direction c)
      by (change (ListContext.direction (reset c')
                  = ListContext.direction (reset c)); now rewrite Hconf).
    unfold contentElement. simpl. rewrite Hdrag, Hsp, Hdir. simpl.
    rewrite identifier_eqb_refl, Hrender. simpl.
    destruct (group_eqb_spec (ListContext.stackedGroupIdentifier c')
                (Some (Props.identifier props))) as [Heq|_];
      [contradiction|reflexivity].
  - intros other otherContext. destruct Hclean as (Hd & _ & Hs & _).
    unfold contentElement. simpl. now rewrite Hd, Hs.
Qed.

Lemma pressed_item_renders_its_placeholder_witness :
  Element.children
    (contentElement group_g2 rootGroupContext bothRenderers
       (state_after
          (draggableBinder instance_g2 (DragStart (TargetElement (box 96))) ;;
           deliver (shared := sampleShared)
             [(instance_g1, PointerHover (Some (TargetElement (box 48))));
              (instance_g1, PointerMove (10, 68))]) idleList))
  = PlaceholderElement (meta_of group_g2 rootGroupContext (box 96)) 8 vertical
      (RendererMeta.mk (IdString "g2") None 2) true.
Proof.
  apply (pressed_item_renders_its_placeholder (shared := sampleShared)
           instance_g2 (box 96)
           [(instance_g1, PointerHover (Some (TargetElement (box 48))));
            (instance_g1, PointerMove (10, 68))] bothRenderers idleList).
  - repeat split.
  - reflexivity.
  - repeat constructor.
  - reflexivity.
Defined.

(** ** The calls of a gesture *)

(** The only callback a pointer event calls is the stack callback, and it
    names the dragging item neither as the item it is about nor as the group
    moved into. *)
Lemma binder_callbacks {shared : Shared} (item : ItemInstance)
    (e : PointerEvent) (c : ListContext.t) (draggingNodeMeta : NodeMeta.t) :
  ListContext.draggingNodeMeta c = Some draggingNodeMeta ->
  avoids (NodeMeta.identifier draggingNodeMeta) c ->
  Forall (fun call =>
            exists meta,
              call = ECallOnStackGroup meta
              /\ StackGroupMeta.identifier meta <> NodeMeta.identifier draggingNodeMeta
              /\ StackGroupMeta.nextGroupIdentifier meta
                 <> Some (NodeMeta.identifier draggingNodeMeta))
         (filter is_callback (trace_of (binder item e) c)).
Proof.
  intros Hd (_ & _ & Hhov).
  destruct e as [currentTarget|xy]; simpl binder.
  - unfold trace_of. rewrite binder_onHover_run, Hd.
    destruct currentTarget as [[element|]|]; simpl; try constructor.
    unfold trace_of. rewrite onHover_run.
    destruct (isNeededInitialization _ _ c); simpl; constructor.
  - destruct (binder_onMove_run (instanceProps item) (instanceGroupContext item)
                (instanceChildIdentifiers item) xy c)
      as [H|(Hinit & d & h & Hd' & Hh & H)]; unfold trace_of; rewrite H;
      [constructor|].
    rewrite Hd in Hd'. injection Hd' as <-.
    apply (isNeededInitialization_false_iff _ _ _ _ Hd) in Hinit as [Hne _].
    rewrite (onMove_dispatch _ _ _ _ draggingNodeMeta h _ Hd Hh).
    destruct (isStackCase _ _ c h xy).
    + rewrite onMoveForStackableGroup_run. simpl.
      destruct (ListContext.onStackGroup c); simpl; constructor; [|constructor].
      eexists. split; [reflexivity|]. simpl. split; [exact Hne|].
      destruct (Hhov h Hh) as [Hh1 _]. congruence.
    + change (snd (run ?m c)) with (trace_of m c).
      rewrite onMoveForItems_callbacks.
      destruct (negb (isLonley _) && isComeFromStackedGroup c
                && ListContext.onStackGroup c); constructor; [|constructor].
      eexists. split; [reflexivity|]. simpl. split; [exact Hne|discriminate].
Qed.

Lemma deliver_callbacks {shared : Shared}
    (events : list (ItemInstance * PointerEvent)) :
  forall (c : ListContext.t) (draggingNodeMeta : NodeMeta.t),
    ListContext.draggingNodeMeta c = Some draggingNodeMeta ->
    Forall (fun delivery => contextWellFormed (instanceGroupContext (fst delivery)))
           events ->
    avoids (NodeMeta.identifier draggingNodeMeta) c ->
    Forall (fun call =>
              exists meta,
                call = ECallOnStackGroup meta
                /\ StackGroupMeta.identifier meta
                   <> NodeMeta.identifier draggingNodeMeta
                /\ StackGroupMeta.nextGroupIdentifier meta
                   <> Some (NodeMeta.identifier draggingNodeMeta))
           (filter is_callback (trace_of (deliver events) c)).
Proof.
  induction events as [|[item e] rest IH]; intros c d Hd Hwf Hav; simpl.
  - constructor.
  - rewrite trace_of_bind, filter_app. apply Forall_app. split.
    + now apply binder_callbacks.
    + inversion Hwf as [|? ? Hitem Hrest]; subst. apply IH.
      * now rewrite binder_keeps_draggingNodeMeta.
      * exact Hrest.
      * now apply binder_keeps_avoids.
Qed.

Lemma deliver_inert {shared : Shared}
    (events : list (ItemInstance * PointerEvent)) (c : ListContext.t) :
  ListContext.draggingNodeMeta c = None ->
  run (deliver events) c = (c, []).
Proof.
  intros Hd. induction events as [|[item e] rest IH]; simpl; [reflexivity|].
  rewrite run_bind.
  assert (H : run (binder item e) c = (c, [])).
  { destruct e as [currentTarget|xy]; simpl.
    - now rewrite binder_onHover_run, Hd.
    - now rewrite binder_onMove_eq, Hd. }
  unfold state_after, trace_of. rewrite H. simpl.
  change (fst (run ?m c)) with (state_after m c).
  unfold state_after, trace_of. now rewrite IH.
Qed.

(** X16.  A locked item cannot start a gesture.  On a list with no dragging
    item, after the press of a locked item every pointer event on every item
    does nothing, and so does the release: the list context is unchanged, no
    callback is called, and all that is performed is the handling of the
    press event itself. *)
Theorem locked_press_starts_no_gesture
    {shared : Shared} (pressed : ItemInstance) (currentTarget : EventTarget)
    (events : list (ItemInstance * PointerEvent)) (c : ListContext.t) :
  ListContext.draggingNodeMeta c = None ->
  isLocked (instanceProps pressed) c = true ->
  run (draggableBinder pressed (DragStart currentTarget) ;;
       deliver events ;;
       draggableBinder pressed DragEnd) c
  = (c, match currentTarget with
        | TargetElement _ => [EEventPersist; EEventStopPropagation]
        | TargetOther => []
        end).
Proof.
  intros Hd Hlock.
  assert (Hstart :
    run (draggableBinder pressed (DragStart currentTarget)) c
    = (c, match currentTarget with
          | TargetElement _ => [EEventPersist; EEventStopPropagation]
          | TargetOther => []
          end)).
  { simpl. destruct currentTarget; unfold_handler; simpl;
      [rewrite Hlock|]; reflexivity. }
  assert (Hend : run (draggableBinder pressed DragEnd) c = (c, [])).
  { simpl. unfold_handler. now rewrite Hlock. }
  assert (Hdeliver := deliver_inert events c Hd).
  assert (S1 : state_after (draggableBinder pressed (DragStart currentTarget)) c = c)
    by (unfold state_after; now rewrite Hstart).
  assert (S2 : state_after (deliver events) c = c)
    by (unfold state_after; now rewrite Hdeliver).
  assert (S3 : state_after (draggableBinder pressed DragEnd) c = c)
    by (unfold state_after; now rewrite Hend).
  assert (T1 : trace_of (draggableBinder pressed (DragStart currentTarget)) c
               = match currentTarget with
                 | TargetElement _ => [EEventPersist; EEventStopPropagation]
                 | TargetOther => []
                 end)
    by (unfold trace_of; now rewrite Hstart).
  assert (T2 : trace_of (deliver events) c = [])
    by (unfold trace_of; now rewrite Hdeliver).
  assert (T3 : trace_of (draggableBinder pressed DragEnd) c = [])
    by (unfold trace_of; now rewrite Hend).
  rewrite run_bind, state_after_bind, trace_of_bind.
  rewrite S1, S2, S3, T1, T2, T3. simpl. now rewrite app_nil_r.
Qed.

Lemma locked_press_starts_no_gesture_witness :
  run (draggableBinder (mkInstance locked_item rootGroupContext [])
         (DragStart (TargetElement (box 144))) ;;
       deliver (shared := sampleShared)
         [(instance_g1, PointerHover (Some (TargetElement (box 48))));
          (instance_g1, PointerMove (10, 68))] ;;
       draggableBinder (mkInstance locked_item rootGroupContext []) DragEnd)
      idleList
  = (idleList, [EEventPersist; EEventStopPropagation]).
Proof.
  exact (locked_press_starts_no_gesture (shared := sampleShared)
           (mkInstance locked_item rootGroupContext [])
           (TargetElement (box 144))
           [(instance_g1, PointerHover (Some (TargetElement (box 48))));
            (instance_g1, PointerMove (10, 68))] idleList eq_refl eq_refl).
Defined.

(** X17.  The calls a gesture makes to the host.  Press an unlocked item
    that is not its own group, on a list on which nothing is left of an
    earlier gesture; let any pointer events be handled by items with
    well-formed group contexts; release the item.  The host is called, in
    this order: once with the drag-start of the item, when it supplied that
    callback; any number of times through the stack callback, never with the
    pressed item as the item the call is about nor as the group moved into;
    and once, last, with the drag-end of the item, whose next group is not
    the item itself. *)
Theorem gesture_calls_start_stacks_end
    {shared : Shared} (dragged : ItemInstance) (element : HTMLElement)
    (events : list (ItemInstance * PointerEvent)) (c : ListContext.t) :
  clean c ->
  isLocked (instanceProps dragged) c = false ->
  Forall (fun delivery => contextWellFormed (instanceGroupContext (fst delivery)))
         events ->
  GroupContext.identifier (instanceGroupContext dragged)
  <> Some (Props.identifier (instanceProps dragged)) ->
  let props := instanceProps dragged in
  let groupContext := instanceGroupContext dragged in
  exists stackCalls nextGroupIdentifier nextIndex,
    filter is_callback
      (trace_of
         (draggableBinder dragged (DragStart (TargetElement element)) ;;
          deliver events ;;
          draggableBinder dragged DragEnd) c)
    = (if ListContext.onDragStart c
       then [ECallOnDragStart
               (DragStartMeta.mk (Props.identifier props)
                  (GroupContext.identifier groupContext) (Props.index props)
                  (isGroup props))]
       else [])
      ++ stackCalls
      ++ [ECallOnDragEnd
            (DragEndMeta.mk (Props.identifier props)
               (GroupContext.identifier groupContext) (Props.index props)
               (isGroup props) nextGroupIdentifier nextIndex)]
    /\ Forall (fun call =>
                 exists meta,
                   call = ECallOnStackGroup meta
                   /\ StackGroupMeta.identifier meta <> Props.identifier props
                   /\ StackGroupMeta.nextGroupIdentifier meta
                      <> Some (Props.identifier props))
              stackCalls
    /\ nextGroupIdentifier <> Some (Props.identifier props).
Proof.
  intros Hclean Hlock Hwf Hown props groupContext.
  subst props groupContext.
  set (props := instanceProps dragged) in *.
  set (groupContext := instanceGroupContext dragged) in *.
  set (c1 := ListContext.with_draggingNodeMeta
               (Some (meta_of props groupContext element)) c).
  assert (Hstart :
    run (draggableBinder dragged (DragStart (TargetElement element))) c
    = (c1, [EEventPersist; EEventStopPropagation;
            ESetBodyStyle (ListContext.draggingCursorStyle c);
            EInitializeGhostElementStyle element
              (ListContext.ghostWrapperElementRef c)
              (ListContext.itemSpacing c) (ListContext.direction c);
            ESetDraggingNodeMeta (Some (meta_of props groupContext element))]
           ++ (if ListContext.onDragStart c
               then [ECallOnDragStart
                       (DragStartMeta.mk (Props.identifier props)
                          (GroupContext.identifier groupContext)
                          (Props.index props) (isGroup props))]
               else []))).
  { change (draggableBinder dragged (DragStart (TargetElement element)))
      with (draggableBinder_onDragStart props groupContext (TargetElement element)).
    unfold_handler. simpl. rewrite Hlock.
    destruct (ListContext.onDragStart c); reflexivity. }
  destruct Hclean as (Hd & Hv & Hs & Hh & Hdest).
  assert (Hav : avoids (Props.identifier props) c1).
  { unfold avoids, c1. simpl. rewrite Hs, Hh, Hdest.
    split; [discriminate|split; discriminate]. }
  destruct (deliver_keeps_avoids events c1 (meta_of props groupContext element)
              eq_refl Hwf Hav) as (_ & _ & Hdest2 & _).
  pose proof (deliver_callbacks events c1 (meta_of props groupContext element)
                eq_refl Hwf Hav) as Hcalls.
  set (c2 := state_after (deliver events) c1) in *.
  assert (Hlock2 : isLocked props c2 = false).
  { rewrite (isLocked_reset props c2 c); [exact Hlock|].
    unfold c2. now rewrite deliver_keeps_configuration. }
  exists (filter is_callback (trace_of (deliver events) c1)).
  exists (match ListContext.destinationMetaRef c2 with
          | Some d => DestinationMeta.groupIdentifier d
          | None => GroupContext.identifier groupContext
          end).
  exists (match ListContext.destinationMetaRef c2 with
          | Some d => DestinationMeta.index d
          | None => Some (Props.index props)
          end).
  split; [|split].
  - rewrite trace_of_bind. unfold state_after at 1, trace_of at 1.
    rewrite Hstart. simpl fst. simpl snd.
    rewrite trace_of_bind. fold c2.
    rewrite !filter_app.
    change (draggableBinder dragged DragEnd)
      with (draggableBinder_onDragEnd props groupContext).
    rewrite (onDragEnd_callbacks props groupContext c2 Hlock2).
    simpl. destruct (ListContext.onDragStart c); reflexivity.
  - exact Hcalls.
  - destruct (ListContext.destinationMetaRef c2) as [d|] eqn:E.
    + exact (Hdest2 d eq_refl).
    + exact Hown.
Qed.

Lemma gesture_calls_start_stacks_end_witness :
  filter is_callback
    (trace_of
       (draggableBinder instance_a (DragStart (TargetElement (box 0))) ;;
        deliver (shared := sampleShared)
          [(instance_g1, PointerHover (Some (TargetElement (box 48))));
           (instance_g1, PointerMove (10, 68));
           (instance_b, PointerHover (Some (TargetElement (box 144))));
           (instance_b, PointerMove (10, 170))] ;;
        draggableBinder instance_a DragEnd) idleList)
  = [ECallOnDragStart (DragStartMeta.mk (IdString "a") None 0 false);
     ECallOnStackGroup
       (StackGroupMeta.mk (IdString "g1") None 1 true (Some (IdString "g1")));
     ECallOnStackGroup (StackGroupMeta.mk (IdString "b") None 3 false None);
     ECallOnDragEnd (DragEndMeta.mk (IdString "a") None 0 false None (Some 3))].
Proof.
  destruct (gesture_calls_start_stacks_end (shared := sampleShared) instance_a
              (box 0)
              [(instance_g1, PointerHover (Some (TargetElement (box 48))));
               (instance_g1, PointerMove (10, 68));
               (instance_b, PointerHover (Some (TargetElement (box 144))));
               (instance_b, PointerMove (10, 170))] idleList)
    as (stackCalls & nextGroup & nextIndex & Hcalls & _).
  - repeat split.
  - reflexivity.
  - repeat constructor.
  - discriminate.
  - reflexivity.
Defined.

(** ** Bubbling *)

(** X18.  A move that bubbles up from the hovered item is resolved by that
    item alone.  While the recorded hovered node is an item whose group
    context lists a group among its ancestors, the move handler of that
    group, if any child is registered with it, returns with no effect.  This
    is the case of a group and every item of a tree rendered in the context
    the group provides. *)
Theorem bubbled_move_skips_ancestor_groups
    {shared : Shared} (props : Props.t) (groupContext : GroupContext.t)
    (childIdentifiersRef : list ItemIdentifier)
    (hoveredItem : Props.t) (hoveredContext : GroupContext.t)
    (element : HTMLElement) (c : ListContext.t) (xy : Z * Z) :
  ListContext.hoveredNodeMetaRef c
  = Some (meta_of hoveredItem hoveredContext element) ->
  childIdentifiersRef <> [] ->
  (In (Props.identifier props) (GroupContext.ancestorIdentifiers hoveredContext) ->
   run (binder_onMove props groupContext childIdentifiersRef xy) c = (c, []))
  /\ (forall child,
        isGroup props = true ->
        In (hoveredContext, hoveredItem)
           (rendered (providedGroupContext props groupContext) child) ->
        run (binder_onMove props groupContext childIdentifiersRef xy) c = (c, [])).
Proof.
  intros Hh Hkids.
  assert (Hskip :
    In (Props.identifier props) (GroupContext.ancestorIdentifiers hoveredContext) ->
    run (binder_onMove props groupContext childIdentifiersRef xy) c = (c, [])).
  { intros Hin. rewrite binder_onMove_eq.
    destruct (ListContext.draggingNodeMeta c); [|reflexivity].
    rewrite Hh. simpl.
    assert (Hsize : (0 <? size childIdentifiersRef) = true).
    { unfold size. destruct childIdentifiersRef; [now elim Hkids|].
      simpl List.length. apply Z.ltb_lt. lia. }
    rewrite Hsize, (checkIsAncestorItem_chain _ hoveredItem hoveredContext Hin).
    reflexivity. }
  split; [exact Hskip|].
  intros child Hg Hin. apply Hskip.
  destruct (rendered_context_chain child _ _ _ Hin) as (chain & _ & ->).
  unfold providedGroupContext. rewrite Hg. simpl.
  unfold ancestorIdentifiers. rewrite !in_app_iff. left. right. now left.
Qed.

Lemma bubbled_move_skips_ancestor_groups_witness :
  run (binder_onMove (shared := sampleShared) group_g2 rootGroupContext
         [IdString "c"] (10, 110))
      (ListContext.with_hoveredNodeMetaRef
         (Some (meta_of item_c group_g2_context (box 100))) draggingA)
  = (ListContext.with_hoveredNodeMetaRef
       (Some (meta_of item_c group_g2_context (box 100))) draggingA, []).
Proof.
  apply (proj1 (bubbled_move_skips_ancestor_groups (shared := sampleShared)
                  group_g2 rootGroupContext [IdString "c"] item_c
                  group_g2_context (box 100)
                  (ListContext.with_hoveredNodeMetaRef
                     (Some (meta_of item_c group_g2_context (box 100))) draggingA)
                  (10, 110) eq_refl ltac:(discriminate))).
  left. reflexivity.
Defined.

(** ** The self and ancestry guards *)

(** C1, as the code has it.  While an item is being dragged:
    - an item that is the dragging item itself or has the dragging item in
      its ancestor chain hides the drop line and clears
      [hoveredNodeMetaRef] and [destinationMetaRef] on hover, whatever they
      held, and returns from its move handler without performing any effect;
    - whatever the item and the pointer event, the event leaves the
      destination as it was, or clears it, or records one; it records one
      only on an item that is neither the dragging item nor below it, and
      the destination then names that item (a stack) or that item's group (a
      reorder);
    - along any sequence of pointer events on items with well-formed group
      contexts, the dragging item stays the dragging item and is never the
      group of the destination, the stacked group or the hovered node, nor
      is the hovered node below it.
    Nothing excludes the ancestors of the dragging item. *)
Theorem self_and_descendants_record_no_destination
    {shared : Shared} (props : Props.t) (groupContext : GroupContext.t)
    (childIdentifiersRef : list ItemIdentifier) (c : ListContext.t)
    (draggingNodeMeta : NodeMeta.t) :
  ListContext.draggingNodeMeta c = Some draggingNodeMeta ->
  let dragged := NodeMeta.identifier draggingNodeMeta in
  let item := mkInstance props groupContext childIdentifiersRef in
  let selfOrBelow :=
    Props.identifier props = dragged
    \/ In dragged (GroupContext.ancestorIdentifiers groupContext) in
  (selfOrBelow ->
   (forall element,
      run (onHover props groupContext element) c
      = (ListContext.with_destinationMetaRef None
           (ListContext.with_hoveredNodeMetaRef None
              (ListContext.with_isVisibleDropLineElement false c)),
         [ESetIsVisibleDropLineElement false; EWriteHoveredNodeMetaRef None;
          EWriteDestinationMetaRef None]))
   /\ (forall element,
         let c' := state_after
                     (binder_onHover props groupContext
                        (Some (TargetElement element))) c in
         ListContext.hoveredNodeMetaRef c' = None
         /\ ListContext.destinationMetaRef c' = None
         /\ ListContext.isVisibleDropLineElement c' = false)
   /\ (forall xy,
         run (binder_onMove props groupContext childIdentifiersRef xy) c = (c, [])))
  /\ (forall e,
        let c' := state_after (binder item e) c in
        ListContext.destinationMetaRef c' = ListContext.destinationMetaRef c
        \/ ListContext.destinationMetaRef c' = None
        \/ (~ selfOrBelow
            /\ (ListContext.destinationMetaRef c'
                = Some (DestinationMeta.mk (Some (Props.identifier props)) None)
                \/ exists index,
                     ListContext.destinationMetaRef c'
                     = Some (DestinationMeta.mk
                               (GroupContext.identifier groupContext)
                               (Some index)))))
  /\ (forall events,
        Forall (fun delivery =>
                  contextWellFormed (instanceGroupContext (fst delivery)))
               events ->
        avoids dragged c ->
        ListContext.draggingNodeMeta (state_after (deliver events) c)
        = Some draggingNodeMeta
        /\ avoids dragged (state_after (deliver events) c)).
Proof.
  intros Hd dragged item selfOrBelow.
  pose proof (isNeededInitialization_false_iff props groupContext c
                draggingNodeMeta Hd) as Hiff.
  assert (Hnot : isNeededInitialization props groupContext c = false ->
                 ~ selfOrBelow).
  { intros Hi. apply Hiff in Hi as [Hne Hnin].
    intros [Heq|Hin]; [exact (Hne Heq)|exact (Hnin Hin)]. }
  split; [|split].
  - intros Hguard.
    assert (Hinit : isNeededInitialization props groupContext c = true).
    { destruct (isNeededInitialization props groupContext c) eqn:E;
        [reflexivity|]. elim (Hnot eq_refl). exact Hguard. }
    assert (Hhover : forall element,
      run (onHover props groupContext element) c
      = (ListContext.with_destinationMetaRef None
           (ListContext.with_hoveredNodeMetaRef None
              (ListContext.with_isVisibleDropLineElement false c)),
         [ESetIsVisibleDropLineElement false; EWriteHoveredNodeMetaRef None;
          EWriteDestinationMetaRef None])).
    { intros element. now rewrite onHover_run, Hinit. }
    split; [exact Hhover|split].
    + intros element. unfold state_after.
      rewrite binder_onHover_run, Hd. simpl.
      unfold state_after. rewrite Hhover. simpl. repeat split.
    + intros xy. rewrite binder_onMove_eq, Hd, Hinit.
      destruct ((0 <? size childIdentifiersRef) && _); reflexivity.
  - intros e.
    destruct (binder_state item e c)
      as [H|[H|[(_ & el & H)|[(Hi & H)|[H|(Hi & i & b & H)]]]]]; simpl;
      rewrite H; clear H; simpl.
    + now left.
    + right. now left.
    + now left.
    + right. right. split; [exact (Hnot Hi)|]. now left.
    + right. now left.
    + right. right. split; [exact (Hnot Hi)|]. right. exists i.
      destruct b; reflexivity.
  - intros events Hwf Hav.
    exact (deliver_keeps_avoids events c draggingNodeMeta Hd Hwf Hav).
Qed.

(** C1 as stated fails for the ancestors of the dragging item.  With [c],
    a child of the group [g2], being dragged, the hover of [g2] is accepted,
    and a move over its sibling [d] records a destination in [g2]. *)
Lemma ancestor_of_dragging_item_is_targeted :
  let pressC := draggableBinder instance_c (DragStart (TargetElement (box 100))) in
  let overSibling :=
    state_after
      (pressC ;;
       deliver (shared := sampleShared)
         [(instance_d, PointerHover (Some (TargetElement (box 140))));
          (instance_d, PointerMove (10, 170))]) idleList in
  In (IdString "g2")
     (GroupContext.ancestorIdentifiers (instanceGroupContext instance_c))
  /\ ListContext.hoveredNodeMetaRef
       (state_after
          (pressC ;;
           binder (shared := sampleShared) instance_g2
             (PointerHover (Some (TargetElement (box 96))))) idleList)
     = Some (meta_of group_g2 rootGroupContext (box 96))
  /\ ListContext.destinationMetaRef overSibling
     = Some (DestinationMeta.mk (Some (IdString "g2")) (Some 1))
  /\ ~ (forall destination group,
          ListContext.destinationMetaRef overSibling = Some destination ->
          DestinationMeta.groupIdentifier destination = Some group ->
          ~ In group
               (GroupContext.ancestorIdentifiers
                  (instanceGroupContext instance_c))).
Proof.
  intros pressC overSibling.
  split; [now left|split; [reflexivity|split; [reflexivity|]]].
  intros H.
  apply (H (DestinationMeta.mk (Some (IdString "g2")) (Some 1)) (IdString "g2"));
    [reflexivity|reflexivity|now left].
Qed.

Lemma self_and_descendants_record_no_destination_witness :
  (ListContext.destinationMetaRef
     (state_after (onHover item_c group_g2_context (box 100)) draggingG2) = None
   /\ run (binder_onMove (shared := sampleShared) item_c group_g2_context []
             (10, 110)) draggingG2
      = (draggingG2, [])
   /\ ListContext.destinationMetaRef
        (state_after
           (onMove (shared := sampleShared) item_c group_g2_context [] (10, 110))
           draggingG2)
      = Some (DestinationMeta.mk (Some (IdString "g2")) (Some 2)))
  /\ avoids (IdString "g2")
       (state_after
          (deliver (shared := sampleShared)
             [(instance_c, PointerHover (Some (TargetElement (box 100))));
              (instance_c, PointerMove (10, 110));
              (instance_b, PointerHover (Some (TargetElement (box 144))));
              (instance_b, PointerMove (10, 170))]) draggingG2).
Proof.
  destruct (self_and_descendants_record_no_destination (shared := sampleShared)
              item_c group_g2_context [] draggingG2
              (meta_of group_g2 rootGroupContext (box 96)) eq_refl)
    as (Hguard & _ & Hsequence).
  destruct (Hguard (or_intror (or_introl eq_refl))) as (Hhover & _ & Hmove).
  split; [split; [|split]|].
  - unfold state_after. rewrite (Hhover (box 100)). reflexivity.
  - exact (Hmove (10, 110)).
  - reflexivity.
  - apply Hsequence.
    + repeat constructor.
    + split; [discriminate|split].
      * intros destination Heq. injection Heq as <-. discriminate.
      * intros hovered Heq. injection Heq as <-.
        split; [discriminate|]. simpl. intros [Heq|[]]. discriminate Heq.
Defined.
